(** * A shallow embedding of [code_analyzer.py]

    The module under study is glue code: it runs external linters as child
    processes, re-shapes what they print into three lists of issue
    dictionaries ([bugs], [warnings], [suggestions]) and falls back to a
    handful of regular expressions when no JavaScript linter is installed.

    Modelling decisions, all of them visible in the definitions below:

    - Python [str] values are Rocq [string]s whose characters are read as
      the code points 0..255.  Case mapping, white space, decimal digits and
      word characters are Python's on that range.
    - Values decoded from JSON are the inductive type [json]; a [dict] is an
      association list in insertion order, looked up by its first binding
      (a decoded object has no repeated key).
    - Everything outside the interpreter (the search path, the temporary
      file, the child process, [json.loads]) is answered by a [world]; what
      the calls change (the files on disk, the processes started) is a
      [state] threaded explicitly through the functions.
    - An exception raised inside a [try] block is a value of a sum type, and
      the handlers are the [match] that follows.  Calls to [logging] change
      nothing the functions return and are left out. *)

From Stdlib Require Import String Ascii List ZArith Bool Lia Arith.
From Stdlib Require Import Floats.SpecFloat.
From Stdlib Require Import Numbers.DecimalString Numbers.DecimalNat.
Import ListNotations.

Local Open Scope list_scope.
Local Open Scope string_scope.
Local Open Scope nat_scope.

(** ** Text *)

Module Text.

Definition code (c : ascii) : nat := nat_of_ascii c.

Definition between (lo hi n : nat) : bool := (lo <=? n) && (n <=? hi).

(** [str.isspace] for one character. *)
Definition isspace (c : ascii) : bool :=
  let n := code c in
  between 9 13 n || between 28 32 n || (n =? 133) || (n =? 160).

(** Characters [int()] reads as the digits 0..9. *)
Definition isdecimal (c : ascii) : bool := between 48 57 (code c).

(** [\w] of the [re] module on [str] patterns: alphanumeric or [_]. *)
Definition isword (c : ascii) : bool :=
  let n := code c in
  between 48 57 n || between 65 90 n || between 97 122 n || (n =? 95)
  || (n =? 170) || (n =? 181) || (n =? 186)
  || between 178 179 n || (n =? 185) || between 188 190 n
  || between 192 214 n || between 216 246 n || between 248 255 n.

(** [str.lower] for one character. *)
Definition lower_char (c : ascii) : ascii :=
  let n := code c in
  if between 65 90 n || between 192 214 n || between 216 222 n
  then ascii_of_nat (n + 32) else c.

Fixpoint lower (s : string) : string :=
  match s with
  | EmptyString => EmptyString
  | String c r => String (lower_char c) (lower r)
  end.

Fixpoint lstrip (s : string) : string :=
  match s with
  | String c r => if isspace c then lstrip r else s
  | EmptyString => EmptyString
  end.

(** Drops the white space that ends [s]. *)
Fixpoint rstrip (s : string) : string :=
  match s with
  | EmptyString => EmptyString
  | String c r =>
      match rstrip r with
      | EmptyString => if isspace c then EmptyString else String c EmptyString
      | r' => String c r'
      end
  end.

(** [s.strip()] *)
Definition strip (s : string) : string := rstrip (lstrip s).

(** [s.split(sep)] for a one-character separator. *)
Fixpoint split (sep : ascii) (s : string) : list string :=
  match s with
  | EmptyString => [EmptyString]
  | String c r =>
      if Ascii.eqb c sep then EmptyString :: split sep r
      else match split sep r with
           | h :: t => String c h :: t
           | [] => [String c EmptyString]
           end
  end.

(** [s.split(sep, maxsplit)] for a one-character separator. *)
Fixpoint split_max (sep : ascii) (maxsplit : nat) (s : string) : list string :=
  match maxsplit with
  | O => [s]
  | S m =>
      match s with
      | EmptyString => [EmptyString]
      | String c r =>
          if Ascii.eqb c sep then EmptyString :: split_max sep m r
          else match split_max sep maxsplit r with
               | h :: t => String c h :: t
               | [] => [String c EmptyString]
               end
      end
  end.

(** [s.startswith(p)] *)
Definition startswith (p s : string) : bool := String.prefix p s.

Fixpoint last_char (s : string) : option ascii :=
  match s with
  | EmptyString => None
  | String c EmptyString => Some c
  | String _ r => last_char r
  end.

(** [s.endswith(c)] for a one-character suffix. *)
Definition endswith_char (c : ascii) (s : string) : bool :=
  match last_char s with
  | Some d => Ascii.eqb c d
  | None => false
  end.

(** [str(n)] for a length. *)
Definition of_nat (n : nat) : string := NilZero.string_of_uint (Nat.to_uint n).

Definition hex_digit (n : nat) : ascii :=
  if n <? 10 then ascii_of_nat (48 + n) else ascii_of_nat (87 + n).

Definition printable (c : ascii) : bool :=
  let n := code c in
  between 32 126 n || (between 161 255 n && negb (n =? 173)).

Fixpoint contains_char (c : ascii) (s : string) : bool :=
  match s with
  | EmptyString => false
  | String d r => Ascii.eqb c d || contains_char c r
  end.

Fixpoint repr_body (q : ascii) (s : string) : string :=
  match s with
  | EmptyString => EmptyString
  | String c r =>
      let n := code c in
      let rest := repr_body q r in
      if Ascii.eqb c q || (n =? 92) then String "\" (String c rest)
      else if n =? 9 then "\t" ++ rest
      else if n =? 10 then "\n" ++ rest
      else if n =? 13 then "\r" ++ rest
      else if printable c then String c rest
      else String "\" (String "x"
             (String (hex_digit (n / 16)) (String (hex_digit (n mod 16)) rest)))
  end.

(** [repr(s)]: single quotes unless the text has one and no double quote. *)
Definition repr (s : string) : string :=
  let q := if contains_char "'" s && negb (contains_char "034" s)
           then "034"%char else "'"%char in
  String q (repr_body q s ++ String q EmptyString).

(** The white space [int()] skips around a numeral: the white space of C,
    and the white space above U+007F, which is turned into a space before
    the numeral is read.  U+001C..U+001F, which [str.strip] removes, are not
    skipped. *)
Definition int_space (c : ascii) : bool :=
  let n := code c in
  between 9 13 n || (n =? 32) || (n =? 133) || (n =? 160).

Fixpoint skip_int_space (s : string) : string :=
  match s with
  | String c r => if int_space c then skip_int_space r else s
  | EmptyString => EmptyString
  end.

(** The run of digits and underscores a text begins with: its value, the
    number of its digits and what follows it, or nothing when two
    underscores meet or an underscore ends the run.  [acc] and [count] are
    the value and the digits read so far, [after_underscore] tells whether
    the character before was an underscore. *)
Fixpoint scan (acc : Z) (count : nat) (after_underscore : bool) (s : string)
  : option (Z * nat * string) :=
  match s with
  | EmptyString => if after_underscore then None else Some (acc, count, s)
  | String c r =>
      if isdecimal c then
        scan (10 * acc + Z.of_nat (code c - 48)) (S count) false r
      else if Ascii.eqb c "_" then
        if after_underscore then None else scan acc count true r
      else if after_underscore then None else Some (acc, count, s)
  end.

(** [sys.int_info.default_max_str_digits] *)
Definition max_str_digits : nat := 4300.

Inductive int_parse : Type :=
| Parsed (z : Z)
| OverLimit (count : nat)
| Invalid.

(** How [int(s)] reads [s]: white space, a sign, a run of digits that does
    not begin with an underscore and has at most [max_str_digits] digits,
    white space, the end. *)
Definition parse_int (s : string) : int_parse :=
  let t := skip_int_space s in
  let signed :=
    match t with
    | String "+" r => (false, r)
    | String "-" r => (true, r)
    | _ => (false, t)
    end in
  if startswith "_" (snd signed) then Invalid
  else
    match scan 0 0 false (snd signed) with
    | None => Invalid
    | Some (value, count, rest) =>
        if max_str_digits <? count then OverLimit count
        else if count =? 0 then Invalid
        else if negb (String.eqb (skip_int_space rest) EmptyString) then Invalid
        else Parsed (if fst signed then (- value)%Z else value)
    end.


(** [int(s)]: the number, or the text of the [ValueError] it raises. *)
Definition int (s : string) : string + Z :=
  match parse_int s with
  | Parsed z => inr z
  | OverLimit count =>
      inl ("Exceeds the limit (" ++ of_nat max_str_digits
           ++ " digits) for integer string conversion: value has "
           ++ of_nat count
           ++ " digits; use sys.set_int_max_str_digits() to increase the limit")
  | Invalid =>
      inl ("invalid literal for int() with base 10: "
           ++ String.substring 0 200 (repr s))
  end.

End Text.

(** ** Values decoded from JSON *)

Set Warnings "-register-all".

(** What [json.loads] builds: [None], [bool], [int], [float], [str], [list]
    and [dict]. *)
Inductive json : Type :=
| JNull
| JBool (b : bool)
| JInt (z : Z)
| JFloat (f : spec_float)
| JStr (s : string)
| JArr (l : list json)
| JObj (d : list (string * json)).

(** A [dict] with text keys. *)
Definition dict : Type := list (string * json).

Module Py.

(** [type(v).__name__] *)
Definition type_name (v : json) : string :=
  match v with
  | JNull => "NoneType"
  | JBool _ => "bool"
  | JInt _ => "int"
  | JFloat _ => "float"
  | JStr _ => "str"
  | JArr _ => "list"
  | JObj _ => "dict"
  end.

Fixpoint lookup (d : dict) (k : string) : option json :=
  match d with
  | [] => None
  | (k', v) :: r => if String.eqb k' k then Some v else lookup r k
  end.

(** [d.get(k)] *)
Definition get (d : dict) (k : string) : json :=
  match lookup d k with Some v => v | None => JNull end.

(** [d.get(k, default)] *)
Definition get_default (d : dict) (k : string) (default : json) : json :=
  match lookup d k with Some v => v | None => default end.

(** The receiver of a call [v.get(...)]: only a [dict] has the method, any
    other value raises [AttributeError] with the text on the left. *)
Definition as_dict (v : json) : string + dict :=
  match v with
  | JObj d => inr d
  | _ => inl ("'" ++ type_name v ++ "' object has no attribute 'get'")
  end.

Fixpoint chars (s : string) : list json :=
  match s with
  | EmptyString => []
  | String c r => JStr (String c EmptyString) :: chars r
  end.

(** The values a [for] loop over [v] visits: the elements of a list, the
    keys of a dict, the characters of a text; the other values raise
    [TypeError] with the text on the left. *)
Definition iterate (v : json) : string + list json :=
  match v with
  | JArr l => inr l
  | JObj d => inr (map (fun kv => JStr (fst kv)) d)
  | JStr s => inr (chars s)
  | _ => inl ("'" ++ type_name v ++ "' object is not iterable")
  end.

(** [v == s] for a text [s]. *)
Definition eq_str (v : json) (s : string) : bool :=
  match v with
  | JStr t => String.eqb t s
  | _ => false
  end.

(** [f == z] for a float and an integer, which Python compares by their
    exact values. *)
Definition float_eq_int (f : spec_float) (z : Z) : bool :=
  match f with
  | S754_zero _ => Z.eqb z 0
  | S754_finite s m e =>
      let n := if s then Z.neg m else Z.pos m in
      if (0 <=? e)%Z then Z.eqb (n * 2 ^ e) z
      else Z.eqb n (z * 2 ^ (- e))
  | _ => false
  end.

(** [v == z] for an integer [z]. *)
Definition eq_int (v : json) (z : Z) : bool :=
  match v with
  | JInt n => Z.eqb n z
  | JBool b => Z.eqb (if b then 1 else 0) z
  | JFloat f => float_eq_int f z
  | _ => false
  end.

(** [v in [s1, s2, ...]] for a list of texts. *)
Definition in_strs (v : json) (l : list string) : bool :=
  existsb (eq_str v) l.

End Py.

(** ** The regular expressions of the fallback *)

Module Re.

(** The fragment of the [re] syntax the module uses. *)
Inductive regex : Type :=
| Eps
| Chr (c : ascii)                     (* a literal character *)
| NoneOf (l : list ascii)             (* [^...] *)
| Space                               (* \s *)
| Seq (r1 r2 : regex)
| Alt (r1 r2 : regex)
| Star (r : regex)
| Bol                                 (* ^ *)
| Eol                                 (* $ *)
| WordB                               (* \b *)
| NotAhead (r : regex).               (* (?!...) *)

Definition Plus (r : regex) : regex := Seq r (Star r).

Fixpoint Lit (s : string) : regex :=
  match s with
  | EmptyString => Eps
  | String c r => Seq (Chr c) (Lit r)
  end.

Fixpoint AnyOf (l : list regex) : regex :=
  match l with
  | [] => NoneOf [] (* unused: every alternation of the source is non-empty *)
  | [r] => r
  | r :: t => Alt r (AnyOf t)
  end.

Definition word_before (prev : option ascii) : bool :=
  match prev with Some c => Text.isword c | None => false end.

Definition word_here (s : string) : bool :=
  match s with String c _ => Text.isword c | EmptyString => false end.

(** [matches r prev s k]: [r] matches a prefix of [s], where [prev] is the
    character just before [s] in the subject, and [k] accepts what follows
    (the last character consumed and the rest).  Only the existence of a
    match is computed, which is all the source asks of [re.search] and
    [re.match]. *)
Fixpoint matches (r : regex) (prev : option ascii) (s : string)
         (k : option ascii -> string -> bool) {struct r} : bool :=
  match r with
  | Eps => k prev s
  | Chr c =>
      match s with
      | String d t => Ascii.eqb c d && k (Some d) t
      | EmptyString => false
      end
  | NoneOf l =>
      match s with
      | String d t => negb (existsb (Ascii.eqb d) l) && k (Some d) t
      | EmptyString => false
      end
  | Space =>
      match s with
      | String d t => Text.isspace d && k (Some d) t
      | EmptyString => false
      end
  | Seq r1 r2 => matches r1 prev s (fun p t => matches r2 p t k)
  | Alt r1 r2 => matches r1 prev s k || matches r2 prev s k
  | Star r1 =>
      (fix loop (fuel : nat) (p : option ascii) (t : string) {struct fuel} : bool :=
         match fuel with
         | O => k p t
         | S fuel' =>
             matches r1 p t
               (fun p' t' => (String.length t' <? String.length t) && loop fuel' p' t')
             || k p t
         end) (String.length s) prev s
  | Bol => match prev with None => k prev s | Some _ => false end
  | Eol =>
      match s with
      | EmptyString => k prev s
      | String c EmptyString => (Text.code c =? 10) && k prev s
      | _ => false
      end
  | WordB => negb (Bool.eqb (word_before prev) (word_here s)) && k prev s
  | NotAhead r1 => negb (matches r1 prev s (fun _ _ => true)) && k prev s
  end.

(** [re.match(r, s)] is not [None]. *)
Definition match_ (r : regex) (s : string) : bool :=
  matches r None s (fun _ _ => true).

Fixpoint search_from (r : regex) (prev : option ascii) (s : string) : bool :=
  matches r prev s (fun _ _ => true)
  || match s with
     | EmptyString => false
     | String c t => search_from r (Some c) t
     end.

(** [re.search(r, s)] is not [None]. *)
Definition search (r : regex) (s : string) : bool := search_from r None s.

(** [[^;{}]\s*$] *)
Definition no_terminator : regex :=
  Seq (NoneOf [";"; "{"; "}"]%char) (Seq (Star Space) Eol).

(** [^\s*(if|for|while|function|else|try|catch|finally)] *)
Definition control_keyword : regex :=
  Seq Bol (Seq (Star Space)
    (AnyOf (map Lit ["if"; "for"; "while"; "function"; "else"; "try";
                     "catch"; "finally"]))).

(** [\bvar\s+] *)
Definition var_decl : regex := Seq WordB (Seq (Lit "var") (Plus Space)).

(** [console\.log] *)
Definition console_log : regex := Lit "console.log".

(** [==(?!=)] *)
Definition loose_eq : regex := Seq (Lit "==") (NotAhead (Chr "=")).

(** [function\s*\(\s*\)] *)
Definition anon_function : regex :=
  Seq (Lit "function")
    (Seq (Star Space) (Seq (Chr "(") (Seq (Star Space) (Chr ")")))).

End Re.

(** ** The world outside the interpreter *)

(** [subprocess.run(..., capture_output=True, text=True, timeout=30)]: the
    child ends within the bound, or [TimeoutExpired] is raised, or another
    exception is (its [str()] is kept). *)
Inductive run_outcome : Type :=
| Completed (returncode : Z) (stdout stderr : string)
| TimeoutExpired
| RunRaised (msg : string).

(** [json.loads(text)] *)
Inductive loads_outcome : Type :=
| Loaded (v : json)
| JSONDecodeError
| LoadsRaised (msg : string).

(** The block
    [with tempfile.NamedTemporaryFile(mode='w', suffix=..., delete=False) as f:
       f.write(code); temp_file = f.name]
    either fails to create the file, or creates it and fails to write (the
    name is not recorded yet), or fails when the block closes the file (the
    name is recorded), or succeeds. *)
Inductive tempfile_outcome : Type :=
| CreateRaised (msg : string)
| WriteRaised (name msg : string)
| CloseRaised (name msg : string)
| Written (name : string).

Record world : Type := {
  which : string -> bool;                       (* shutil.which(tool) is truthy *)
  named_temporary_file : string -> string -> tempfile_outcome; (* suffix, code *)
  run : list string -> run_outcome;             (* the argument vector *)
  json_loads : string -> loads_outcome;
  unlink_raises : string -> bool                (* os.unlink(path) raises OSError *)
}.

(** What the calls change: the files present on disk and the argument
    vectors handed to [subprocess.run], oldest first. *)
Record state : Type := {
  files : list string;
  invoked : list (list string)
}.

Definition create (name : string) (st : state) : state :=
  {| files := name :: files st; invoked := invoked st |}.

Definition invoke (argv : list string) (st : state) : state :=
  {| files := files st; invoked := invoked st ++ [argv] |}.

(** [os.path.exists(path)] *)
Definition path_exists (path : string) (st : state) : bool :=
  existsb (String.eqb path) (files st).

Definition remove (path : string) (st : state) : state :=
  {| files := filter (fun p => negb (String.eqb path p)) (files st);
     invoked := invoked st |}.

(** ** Results *)

(** The dictionaries the methods return.  ['bugs'] and ['warnings'] are
    always present; ['suggestions'], ['error'] and ['summary'] are keys that
    some of the returned dictionaries lack. *)
Record result : Type := {
  bugs : list dict;
  warnings : list dict;
  suggestions : option (list dict);
  error : option string;
  summary : option string
}.

(** ['error' in r] *)
Definition has_error (r : result) : bool :=
  match error r with Some _ => true | None => false end.

(** [{'bugs': [], 'warnings': [], 'suggestions': [], 'error': msg}] *)
Definition error_result (msg : string) : result :=
  {| bugs := []; warnings := []; suggestions := Some [];
     error := Some msg; summary := None |}.

Definition summary_text (b w s : list dict) : string :=
  "Found " ++ Text.of_nat (length b) ++ " bugs, "
  ++ Text.of_nat (length w) ++ " warnings, "
  ++ Text.of_nat (length s) ++ " suggestions".

(** The dictionary both pipelines return at their end. *)
Definition summary_result (b w s : list dict) : result :=
  {| bugs := b; warnings := w; suggestions := Some s;
     error := None; summary := Some (summary_text b w s) |}.

Definition nonempty (s : string) : bool :=
  match s with EmptyString => false | _ => true end.

Definition dq : string := String "034" EmptyString.

(** The [finally] clause of both pipelines. *)
Definition cleanup (w : world) (temp_file : option string) (st : state) : state :=
  match temp_file with
  | Some path =>
      if nonempty path && path_exists path st then
        if unlink_raises w path then st else remove path st
      else st
  | None => st
  end.

(** How a [try] body ends: by an exception no inner handler took, by a
    [return], or by reaching its end with the three lists built so far. *)
Inductive body_end : Type :=
| Raised (msg : string)
| Return (r : result)
| Fall (b w s : list dict).

(** ** [_run_pylint] *)

Definition pylint_item (issue : dict) : dict :=
  [ ("line", Py.get_default issue "line" (JInt 0));
    ("column", Py.get_default issue "column" (JInt 0));
    ("message", Py.get_default issue "message" (JStr ""));
    ("type", Py.get_default issue "type" (JStr ""));
    ("symbol", Py.get_default issue "symbol" (JStr "")) ].

(** The loop over [pylint_output]; the left summand is the [str()] of the
    exception that ended it. *)
Fixpoint pylint_loop (issues : list json) (b w s : list dict)
  : string + (list dict * list dict * list dict) :=
  match issues with
  | [] => inr (b, w, s)
  | v :: rest =>
      match Py.as_dict v with
      | inl msg => inl msg
      | inr issue =>
          let item := pylint_item issue in
          if Py.eq_str (Py.get issue "type") "error" then
            pylint_loop rest (b ++ [item]) w s
          else if Py.eq_str (Py.get issue "type") "warning" then
            pylint_loop rest b (w ++ [item]) s
          else if Py.in_strs (Py.get issue "type") ["convention"; "refactor"] then
            pylint_loop rest b w (s ++ [item])
          else pylint_loop rest b w s
      end
  end.

Definition pylint_argv (file_path : string) : list string :=
  ["pylint"; "--output-format=json"; file_path].

Definition _run_pylint (w : world) (file_path : string) (st : state)
  : result * state :=
  if negb (which w "pylint") then
    (error_result ("pylint not installed. Install using " ++ dq
                   ++ "pip install pylint" ++ dq ++ "."), st)
  else
    let st' := invoke (pylint_argv file_path) st in
    match run w (pylint_argv file_path) with
    | Completed _ stdout stderr =>
        if nonempty stdout then
          match json_loads w stdout with
          | Loaded pylint_output =>
              match Py.iterate pylint_output with
              | inl msg => (error_result ("pylint error: " ++ msg), st')
              | inr issues =>
                  match pylint_loop issues [] [] [] with
                  | inl msg => (error_result ("pylint error: " ++ msg), st')
                  | inr (b, wa, s) =>
                      ({| bugs := b; warnings := wa; suggestions := Some s;
                          error := None; summary := None |}, st')
                  end
              end
          | JSONDecodeError =>
              (error_result "Failed to parse pylint output", st')
          | LoadsRaised msg => (error_result ("pylint error: " ++ msg), st')
          end
        else (error_result ("pylint failed: " ++ stderr), st')
    | TimeoutExpired => (error_result "pylint analysis timed out", st')
    | RunRaised msg => (error_result ("pylint error: " ++ msg), st')
    end.

(** ** [_run_flake8] *)

Definition flake8_item (row col : Z) (code message : string) : dict :=
  [ ("line", JInt row); ("column", JInt col); ("code", JStr code);
    ("message", JStr message); ("type", JStr "style") ].

(** The loop over the lines of flake8's output. *)
Fixpoint flake8_loop (lines : list string) (b w : list dict)
  : string + (list dict * list dict) :=
  match lines with
  | [] => inr (b, w)
  | line :: rest =>
      if nonempty line then
        let parts := Text.split_max ":" 3 line in
        if 4 <=? length parts then
          match Text.int (nth 0 parts "") with
          | inl msg => inl msg
          | inr row =>
              match Text.int (nth 1 parts "") with
              | inl msg => inl msg
              | inr col =>
                  let item := flake8_item row col (nth 2 parts "") (nth 3 parts "") in
                  if Text.startswith "E" (nth 2 parts "") then
                    flake8_loop rest (b ++ [item]) w
                  else flake8_loop rest b (w ++ [item])
              end
          end
        else flake8_loop rest b w
      else flake8_loop rest b w
  end.

Definition flake8_argv (file_path : string) : list string :=
  ["flake8"; "--format=%(row)d:%(col)d:%(code)s:%(text)s"; file_path].

Definition newline : ascii := "010"%char.

Definition _run_flake8 (w : world) (file_path : string) (st : state)
  : result * state :=
  if negb (which w "flake8") then
    (error_result ("flake8 not installed. Install using " ++ dq
                   ++ "pip install flake8" ++ dq ++ "."), st)
  else
    let st' := invoke (flake8_argv file_path) st in
    match run w (flake8_argv file_path) with
    | Completed _ stdout _ =>
        match flake8_loop (Text.split newline (Text.strip stdout)) [] [] with
        | inl msg => (error_result ("flake8 error: " ++ msg), st')
        | inr (b, wa) =>
            ({| bugs := b; warnings := wa; suggestions := None;
                error := None; summary := None |}, st')
        end
    | TimeoutExpired => (error_result "flake8 analysis timed out", st')
    | RunRaised msg => (error_result ("flake8 error: " ++ msg), st')
    end.

(** ** [_analyze_python] *)

(** [r['suggestions']]; a missing key raises [KeyError], whose [str()] is the
    quoted key. *)
Definition suggestions_of (r : result) : string + list dict :=
  match suggestions r with
  | Some l => inr l
  | None => inl "'suggestions'"
  end.

(** The [try] body once the temporary file is written and named. *)
Definition python_tools (w : world) (temp_file : string) (st : state)
  : body_end * state :=
  let '(pylint_results, st1) := _run_pylint w temp_file st in
  if has_error pylint_results then (Return pylint_results, st1)
  else
    match suggestions_of pylint_results with
    | inl msg => (Raised msg, st1)
    | inr s =>
        let '(flake8_results, st2) := _run_flake8 w temp_file st1 in
        if has_error flake8_results then (Return flake8_results, st2)
        else (Fall (bugs pylint_results ++ bugs flake8_results)
                   (warnings pylint_results ++ warnings flake8_results)
                   s, st2)
    end.

Definition _analyze_python (w : world) (code : string) (st : state)
  : result * state :=
  let '(body, temp_file, st1) :=
    match named_temporary_file w ".py" code with
    | CreateRaised msg => (Raised msg, None, st)
    | WriteRaised name msg => (Raised msg, None, create name st)
    | CloseRaised name msg => (Raised msg, Some name, create name st)
    | Written name =>
        let '(e, st1) := python_tools w name (create name st) in
        (e, Some name, st1)
    end in
  let st2 := cleanup w temp_file st1 in
  match body with
  | Raised msg => (error_result ("Python analysis failed: " ++ msg), st2)
  | Return r => (r, st2)
  | Fall b wa s => (summary_result b wa s, st2)
  end.

(** ** [_analyze_javascript] *)

Definition eslint_item (issue : dict) : dict :=
  [ ("line", Py.get_default issue "line" (JInt 0));
    ("column", Py.get_default issue "column" (JInt 0));
    ("message", Py.get_default issue "message" (JStr ""));
    ("type", JStr (if Py.eq_int (Py.get_default issue "severity" (JInt 1)) 2
                   then "error" else "warning"));
    ("symbol", Py.get_default issue "ruleId" (JStr "")) ].

(** The inner loop, over the messages of one file. *)
Fixpoint eslint_messages (messages : list json) (b w : list dict)
  : string + (list dict * list dict) :=
  match messages with
  | [] => inr (b, w)
  | v :: rest =>
      match Py.as_dict v with
      | inl msg => inl msg
      | inr issue =>
          let item := eslint_item issue in
          if Py.eq_int (Py.get issue "severity") 2 then
            eslint_messages rest (b ++ [item]) w
          else eslint_messages rest b (w ++ [item])
      end
  end.

(** The outer loop, over the per-file objects. *)
Fixpoint eslint_files (output : list json) (b w : list dict)
  : string + (list dict * list dict) :=
  match output with
  | [] => inr (b, w)
  | v :: rest =>
      match Py.as_dict v with
      | inl msg => inl msg
      | inr file =>
          match Py.iterate (Py.get_default file "messages" (JArr [])) with
          | inl msg => inl msg
          | inr messages =>
              match eslint_messages messages b w with
              | inl msg => inl msg
              | inr (b', w') => eslint_files rest b' w'
              end
          end
      end
  end.

Definition eslint_argv (temp_file : string) : list string :=
  ["eslint"; "--format=json"; temp_file].

(** The [try] body of the ESLint branch once the file is written and named. *)
Definition eslint_tool (w : world) (temp_file : string) (st : state)
  : body_end * state :=
  let st' := invoke (eslint_argv temp_file) st in
  match run w (eslint_argv temp_file) with
  | Completed _ stdout stderr =>
      if nonempty stdout then
        match json_loads w stdout with
        | Loaded eslint_output =>
            match Py.iterate eslint_output with
            | inl msg => (Return (error_result ("ESLint error: " ++ msg)), st')
            | inr output =>
                match eslint_files output [] [] with
                | inl msg => (Return (error_result ("ESLint error: " ++ msg)), st')
                | inr (b, wa) => (Fall b wa [], st')
                end
            end
        | JSONDecodeError =>
            (Return (error_result "Failed to parse ESLint output"), st')
        | LoadsRaised msg => (Return (error_result ("ESLint error: " ++ msg)), st')
        end
      else (Return (error_result ("ESLint failed: " ++ stderr)), st')
  | TimeoutExpired => (Return (error_result "ESLint analysis timed out"), st')
  | RunRaised msg => (Return (error_result ("ESLint error: " ++ msg)), st')
  end.

Definition fallback_item (i : nat) (message type : string) : dict :=
  [ ("line", JInt (Z.of_nat i)); ("message", JStr message); ("type", JStr type) ].

Definition when {A : Type} (c : bool) (x : A) : list A := if c then [x] else [].

(** One turn of the fallback loop: what line [i] appends to [suggestions]
    and to [warnings]. *)
Definition fallback_line (i : nat) (line : string) : list dict * list dict :=
  let stripped := Text.strip line in
  ( (when (Re.search Re.no_terminator stripped
           && nonempty stripped
           && negb (Text.endswith_char "{" stripped)
           && negb (Text.endswith_char "}" stripped)
           && negb (Re.match_ Re.control_keyword stripped))
       (fallback_item i "Consider adding semicolon at end of statement" "style")
     ++ when (Re.search Re.var_decl line)
       (fallback_item i "Consider using let or const instead of var" "modern")
     ++ when (Re.search Re.loose_eq line)
       (fallback_item i "Use strict equality (===) instead of loose equality (==)"
          "best_practice")
     ++ when (Re.search Re.anon_function line)
       (fallback_item i "Consider using arrow functions for better readability"
          "modern"))%list,
    when (Re.search Re.console_log line)
      (fallback_item i "Remove console.log statements in production code"
         "warning") ).

(** [for i, line in enumerate(lines, i): ...] *)
Fixpoint fallback_loop (i : nat) (lines : list string) (w s : list dict)
  : list dict * list dict :=
  match lines with
  | [] => (w, s)
  | line :: rest =>
      let '(s1, w1) := fallback_line i line in
      fallback_loop (S i) rest (w ++ w1) (s ++ s1)
  end.

Definition _analyze_javascript (w : world) (code : string) (st : state)
  : result * state :=
  if which w "eslint" then
    let '(body, temp_file, st1) :=
      match named_temporary_file w ".js" code with
      | CreateRaised msg => (Raised msg, None, st)
      | WriteRaised name msg => (Raised msg, None, create name st)
      | CloseRaised name msg => (Raised msg, Some name, create name st)
      | Written name =>
          let '(e, st1) := eslint_tool w name (create name st) in
          (e, Some name, st1)
      end in
    let st2 := cleanup w temp_file st1 in
    match body with
    | Raised msg => (error_result ("ESLint error: " ++ msg), st2)
    | Return r => (r, st2)
    | Fall b wa s => (summary_result b wa s, st2)
    end
  else
    let '(wa, s) := fallback_loop 1 (Text.split newline code) [] [] in
    (summary_result [] wa s, st).

(** ** [analyze] *)

Definition unsupported (language : string) : string :=
  "Language " ++ dq ++ language ++ dq
  ++ " is not supported. Supported languages: python, javascript".

Definition analyze (w : world) (code language : string) (st : state)
  : result * state :=
  let language := Text.lower language in
  if String.eqb language "python" then _analyze_python w code st
  else if String.eqb language "javascript" then _analyze_javascript w code st
  else (error_result (unsupported language), st).

(** * [app.py]: the [/analyze] route *)

(** [request.get_json()]: the decoded body, or the exception Flask raises
    when the body is not JSON (its [str()] is kept). *)
Inductive get_json_outcome : Type :=
| Body (data : json)
| GetJsonRaised (msg : string).

(** What [jsonify] is given: [{'success': False, 'error': ...}] or
    [{'success': True, 'results': ...}]. *)
Inductive payload : Type :=
| Failure (error : string)
| Success (results : result).

Record response : Type := {
  status : nat;
  content : payload
}.

(** The receiver of a call [v.lower()] or [v.strip()]: only a [str] has the
    method, any other value raises [AttributeError] with the text on the
    left. *)
Definition as_str (v : json) (method : string) : string + string :=
  match v with
  | JStr s => inr s
  | _ => inl ("'" ++ Py.type_name v ++ "' object has no attribute '"
              ++ method ++ "'")
  end.

Definition bad_request (msg : string) : response :=
  {| status := 400; content := Failure msg |}.

(** The handler [except Exception as e] of the route. *)
Definition server_error (msg : string) : response :=
  {| status := 500; content := Failure ("Server error: " ++ msg) |}.

(** [len(code) > 100000] *)
Definition too_long (code : string) : bool :=
  (100000 <? N.of_nat (String.length code))%N.

(** [language in ['python', 'javascript']] *)
Definition supported (language : string) : bool :=
  String.eqb language "python" || String.eqb language "javascript".

Definition analyze_code (w : world) (request : get_json_outcome) (st : state)
  : response * state :=
  match request with
  | GetJsonRaised msg => (server_error msg, st)
  | Body data =>
      match Py.as_dict data with
      | inl msg => (server_error msg, st)
      | inr d =>
          let code := Py.get_default d "code" (JStr "") in
          match as_str (Py.get_default d "language" (JStr "python")) "lower" with
          | inl msg => (server_error msg, st)
          | inr l =>
              let language := Text.lower l in
              match as_str code "strip" with
              | inl msg => (server_error msg, st)
              | inr code =>
                  if negb (nonempty (Text.strip code)) then
                    (bad_request "No code provided", st)
                  else if too_long code then
                    (bad_request "Code size exceeds 100KB limit", st)
                  else if negb (supported language) then
                    (bad_request ("Unsupported language: " ++ language), st)
                  else
                    let '(results, st') := analyze w code language st in
                    match error results with
                    | Some e => ({| status := 500; content := Failure e |}, st')
                    | None =>
                        match summary results with
                        | Some _ =>
                            ({| status := 200; content := Success results |}, st')
                        | None => (server_error "'summary'", st')
                        end
                    end
              end
          end
      end
  end.

(** * Definitions the properties are stated with *)

(** ** Worlds used as concrete inputs *)

Module Sample.

Definition st0 : state := {| files := []; invoked := [] |}.

Definition is_tool (tool : string) (argv : list string) : bool :=
  match argv with
  | t :: _ => String.eqb t tool
  | [] => false
  end.

(** No linter is installed. *)
Definition bare : world :=
  {| which := fun _ => false;
     named_temporary_file := fun suffix _ => Written ("/tmp/tmpa1b2c3" ++ suffix);
     run := fun _ => RunRaised "[Errno 2] No such file or directory";
     json_loads := fun _ => JSONDecodeError;
     unlink_raises := fun _ => false |}.

(** Every linter is installed; [tool_run] tells what each child does and
    [loads] what [json.loads] returns. *)
Definition installed (tool_run : list string -> run_outcome)
           (loads : string -> loads_outcome) (unlink_fails : bool) : world :=
  {| which := fun _ => true;
     named_temporary_file := fun suffix _ => Written ("/tmp/tmpa1b2c3" ++ suffix);
     run := tool_run;
     json_loads := loads;
     unlink_raises := fun _ => unlink_fails |}.

(** What pylint prints for one record of type [error] and one of a type
    the normalizer does not know. *)
Definition two_records : string :=
  "[{" ++ dq ++ "type" ++ dq ++ ": " ++ dq ++ "error" ++ dq ++ ", "
  ++ dq ++ "line" ++ dq ++ ": 7}, {"
  ++ dq ++ "type" ++ dq ++ ": " ++ dq ++ "fatal" ++ dq ++ "}]".

(** [json.loads] on the two texts the samples print. *)
Definition loads (text : string) : loads_outcome :=
  if String.eqb text "[]" then Loaded (JArr [])
  else if String.eqb text two_records
  then Loaded (JArr [JObj [("type", JStr "error"); ("line", JInt 7)];
                     JObj [("type", JStr "fatal")]])
  else JSONDecodeError.

End Sample.

(** ** The mappings as the specification words them *)

Module Pylint.

Inductive bucket : Type := Bug | Warning | Suggestion | Dropped.

Definition bucket_eqb (x y : bucket) : bool :=
  match x, y with
  | Bug, Bug | Warning, Warning | Suggestion, Suggestion | Dropped, Dropped => true
  | _, _ => false
  end.

(** The mapping as the specification words it, on the ['type'] entry of a
    record: ["error"] is a bug, ["warning"] a warning, ["convention"] and
    ["refactor"] are suggestions, anything else (or no entry) is dropped. *)
Definition spec_bucket (record : dict) : bucket :=
  match Py.lookup record "type" with
  | Some (JStr t) =>
      if String.eqb t "error" then Bug
      else if String.eqb t "warning" then Warning
      else if String.eqb t "convention" || String.eqb t "refactor" then Suggestion
      else Dropped
  | _ => Dropped
  end.

(** The records of [records] the specification sends to bucket [k], as the
    entries the normalizer builds for them. *)
Definition sent_to (k : bucket) (records : list dict) : list dict :=
  map pylint_item (filter (fun r => bucket_eqb (spec_bucket r) k) records).

End Pylint.

Module Flake8.






End Flake8.

Module Eslint.





End Eslint.

(** ** More sample worlds and the two shapes of a result *)

Definition flake8_two_lines : string :=
  String.concat (String newline EmptyString)
    ["3:5:E501:line too long"; "3:5:W291:trailing whitespace"; "note"; ""].

Definition eslint_report : string :=
  "[{" ++ dq ++ "messages" ++ dq ++ ": [{" ++ dq ++ "severity" ++ dq ++ ": 2}, {"
  ++ dq ++ "severity" ++ dq ++ ": 1}]}]".

Definition eslint_loads (text : string) : loads_outcome :=
  if String.eqb text eslint_report then
    Loaded (JArr [JObj [("messages",
                         JArr [JObj [("severity", JInt 2)];
                               JObj [("severity", JInt 1)]])]])
  else JSONDecodeError.

(** pylint reports an error-type record, then flake8 times out. *)
Definition flake8_times_out : world :=
  Sample.installed
    (fun argv => if Sample.is_tool "pylint" argv
                 then Completed 2 Sample.two_records ""
                 else TimeoutExpired)
    Sample.loads false.

(** pylint finds nothing, then flake8 exits with status 1, prints nothing
    and complains on its standard error. *)
Definition flake8_fails_silently : world :=
  Sample.installed
    (fun argv => if Sample.is_tool "pylint" argv
                 then Completed 0 "[]" ""
                 else Completed 1 "" "flake8: internal error")
    Sample.loads false.

(** pylint times out and [os.unlink] raises [OSError]. *)
Definition timeout_and_unlink_fails : world :=
  Sample.installed (fun _ => TimeoutExpired) Sample.loads true.

(** pylint times out; [os.unlink] works. *)
Definition pylint_times_out : world :=
  Sample.installed (fun _ => TimeoutExpired) Sample.loads false.

(** An ['error'] text and three empty lists. *)
Definition error_shape (r : result) : Prop :=
  (exists msg, error r = Some msg)
  /\ bugs r = [] /\ warnings r = [] /\ suggestions r = Some [].

(** No ['error'] key and a ['summary'] text. *)
Definition summary_shape (r : result) : Prop :=
  error r = None /\ exists text, summary r = Some text.

Definition one_shape (r : result) : Prop :=
  (error_shape r /\ ~ summary_shape r) \/ (summary_shape r /\ ~ error_shape r).

(** ** Vocabulary of the further properties *)

(** The install hint of a missing Python linter. *)
Definition install_hint (tool : string) : string :=
  tool ++ " not installed. Install using " ++ dq ++ "pip install " ++ tool
  ++ dq ++ ".".

(** Entry [item] has the text [t] under ['type']. *)
Definition has_type (t : string) (item : dict) : Prop :=
  Py.lookup item "type" = Some (JStr t).







(** The text is made of the digits 0..9 only. *)
Fixpoint digit_string (s : string) : bool :=
  match s with
  | EmptyString => true
  | String c r => Text.isdecimal c && digit_string r
  end.



(** How the route answers once [analyze] has returned [results]. *)
Definition answer (results : result) : response :=
  match error results with
  | Some e => {| status := 500; content := Failure e |}
  | None => {| status := 200; content := Success results |}
  end.

(** [sub in s] *)
Fixpoint contains (sub s : string) : bool :=
  String.prefix sub s
  || match s with
     | EmptyString => false
     | String _ t => contains sub t
     end.

(** [list(enumerate(lines, start))] *)
Definition enumerate (start : nat) (lines : list string) : list (nat * string) :=
  combine (seq start (length lines)) lines.

(** Entry [item] is on a line numbered between [lo] and [hi]. *)
Definition line_between (lo hi : nat) (item : dict) : Prop :=
  exists i, Py.lookup item "line" = Some (JInt (Z.of_nat i)) /\ lo <= i <= hi.

(** pylint is installed and reports an error-type record; flake8 is not
    installed. *)
Definition only_pylint : world :=
  {| which := fun tool => String.eqb tool "pylint";
     named_temporary_file := fun _ _ => Written "/tmp/tmpa1b2c3.py";
     run := fun _ => Completed 2 Sample.two_records "";
     json_loads := Sample.loads;
     unlink_raises := fun _ => false |}.

(** pylint reports one error-type record, flake8 one [E] line and one [W]
    line. *)
Definition both_report : world :=
  Sample.installed
    (fun argv => if Sample.is_tool "pylint" argv
                 then Completed 2 Sample.two_records ""
                 else Completed 1 flake8_two_lines "")
    Sample.loads false.

(** pylint and flake8 are installed and find nothing. *)
Definition all_clean : world :=
  Sample.installed
    (fun argv => if Sample.is_tool "pylint" argv
                 then Completed 0 "[]" "" else Completed 0 "" "")
    Sample.loads false.

(** A code of 100001 characters. *)
Definition long_code : string := N.iter 100001 (String "a") EmptyString.

(** Every linter is installed; writing the temporary file fails once the
    file is created. *)
Definition write_fails : world :=
  {| which := fun _ => true;
     named_temporary_file := fun _ _ =>
       WriteRaised "/tmp/tmpa1b2c3.py" "[Errno 28] No space left on device";
     run := fun _ => TimeoutExpired;
     json_loads := Sample.loads;
     unlink_raises := fun _ => false |}.

(** * Properties *)

(** ** Shared facts *)

Lemma lower_char_idem (c : ascii) :
  Text.lower_char (Text.lower_char c) = Text.lower_char c.
Proof. destruct c as [[] [] [] [] [] [] [] []]; reflexivity. Qed.

Lemma lower_idem (s : string) : Text.lower (Text.lower s) = Text.lower s.
Proof.
  induction s as [|c s IH]; simpl; [reflexivity|].
  now rewrite lower_char_idem, IH.
Qed.

Lemma path_exists_remove (path : string) (st : state) :
  path_exists path (remove path st) = false.
Proof.
  unfold path_exists, remove; simpl.
  induction (files st) as [|p l IH]; simpl; [reflexivity|].
  destruct (String.eqb path p) eqn:E; simpl; [exact IH|].
  now rewrite E.
Qed.

Ltac is_error := left; eexists; reflexivity.

(** What [_run_pylint] returns either is an error dictionary with three
    empty lists or has no ['error'] key and a ['suggestions'] list. *)
Lemma run_pylint_shape (w : world) (file_path : string) (st : state) :
  (exists msg, fst (_run_pylint w file_path st) = error_result msg)
  \/ (error (fst (_run_pylint w file_path st)) = None
      /\ summary (fst (_run_pylint w file_path st)) = None
      /\ exists s, suggestions (fst (_run_pylint w file_path st)) = Some s).
Proof.
  unfold _run_pylint.
  destruct (which w "pylint"); simpl; [|is_error].
  destruct (run w (pylint_argv file_path)) as [rc out err| |msg]; simpl;
    try is_error.
  destruct (nonempty out); [|is_error].
  destruct (json_loads w out) as [v| |msg]; try is_error.
  destruct (Py.iterate v) as [msg|issues]; [is_error|].
  destruct (pylint_loop issues [] [] []) as [msg|[[b wa] s]]; [is_error|].
  right; simpl; repeat split; eexists; reflexivity.
Qed.

Lemma run_flake8_shape (w : world) (file_path : string) (st : state) :
  (exists msg, fst (_run_flake8 w file_path st) = error_result msg)
  \/ (error (fst (_run_flake8 w file_path st)) = None).
Proof.
  unfold _run_flake8.
  destruct (which w "flake8"); simpl; [|is_error].
  destruct (run w (flake8_argv file_path)) as [rc out err| |msg]; simpl;
    try is_error.
  destruct (flake8_loop _ [] []) as [msg|[b wa]]; [is_error|].
  right; reflexivity.
Qed.

(** ** The pylint normalizer *)

Lemma pylint_loop_buckets (records : list dict) :
  forall b w s,
    pylint_loop (map JObj records) b w s
    = inr ((b ++ Pylint.sent_to Pylint.Bug records)%list,
           (w ++ Pylint.sent_to Pylint.Warning records)%list,
           (s ++ Pylint.sent_to Pylint.Suggestion records)%list).
Proof.
  unfold Pylint.sent_to.
  induction records as [|r rest IH]; intros b w s; simpl.
  - now rewrite !app_nil_r.
  - unfold Pylint.spec_bucket, Py.get, Py.in_strs.
    destruct (Py.lookup r "type") as [[| | | |t| |]|]; simpl;
      try (rewrite IH; reflexivity).
    destruct (String.eqb t "error") eqn:E1; simpl.
    { rewrite IH, <- app_assoc. reflexivity. }
    destruct (String.eqb t "warning") eqn:E2; simpl.
    { rewrite IH, <- app_assoc. reflexivity. }
    destruct (String.eqb t "convention") eqn:E3; simpl.
    { rewrite IH, <- app_assoc. reflexivity. }
    destruct (String.eqb t "refactor") eqn:E4; simpl.
    { rewrite IH, <- app_assoc. reflexivity. }
    rewrite IH. reflexivity.
Qed.

(** C1.  When pylint prints a JSON array of records, [_run_pylint] returns
    three lists that hold, in the order of the output, exactly the records
    the mapping selects: the records of type ["error"] in [bugs], those of
    type ["warning"] in [warnings], those of type ["convention"] or
    ["refactor"] in [suggestions]; a record of any other type is in none of
    them. *)
Theorem run_pylint_buckets (w : world) (file_path : string) (st : state)
        (rc : Z) (out err : string) (records : list dict) :
  which w "pylint" = true ->
  run w (pylint_argv file_path) = Completed rc out err ->
  out <> "" ->
  json_loads w out = Loaded (JArr (map JObj records)) ->
  fst (_run_pylint w file_path st)
  = {| bugs := Pylint.sent_to Pylint.Bug records;
       warnings := Pylint.sent_to Pylint.Warning records;
       suggestions := Some (Pylint.sent_to Pylint.Suggestion records);
       error := None;
       summary := None |}.
Proof.
  intros Hw Hrun Hout Hloads.
  unfold _run_pylint. rewrite Hw, Hrun. simpl.
  destruct out as [|c out']; [congruence|]. simpl.
  rewrite Hloads. simpl.
  rewrite pylint_loop_buckets. reflexivity.
Qed.

Lemma run_pylint_buckets_witness :
  fst (_run_pylint
         (Sample.installed (fun _ => Completed 2 Sample.two_records "")
                           Sample.loads false)
         "/tmp/tmpa1b2c3.py" Sample.st0)
  = {| bugs := [ [ ("line", JInt 7); ("column", JInt 0); ("message", JStr "");
                   ("type", JStr "error"); ("symbol", JStr "") ] ];
       warnings := [];
       suggestions := Some [];
       error := None;
       summary := None |}.
Proof.
  apply (run_pylint_buckets
           (Sample.installed (fun _ => Completed 2 Sample.two_records "")
                             Sample.loads false)
           "/tmp/tmpa1b2c3.py" Sample.st0 2 Sample.two_records ""
           [ [("type", JStr "error"); ("line", JInt 7)]; [("type", JStr "fatal")] ]).
  - reflexivity.
  - reflexivity.
  - discriminate.
  - reflexivity.
Defined.

(** ** The flake8 normalizer *)











(** ** The ESLint normalizer *)







(** ** The Python pipeline *)

Lemma cleanup_invoked (w : world) (temp_file : option string) (st : state) :
  invoked (cleanup w temp_file st) = invoked st.
Proof.
  unfold cleanup. destruct temp_file as [path|]; [|reflexivity].
  destruct (nonempty path && path_exists path st); [|reflexivity].
  destruct (unlink_raises w path); reflexivity.
Qed.

(** The body of the [try] block ends by returning a tool's error dictionary
    or by falling through with the merged lists; the [KeyError] branch is
    never taken. *)
Lemma python_tools_end (w : world) (name : string) (st : state) :
  (exists msg, fst (python_tools w name st) = Return (error_result msg))
  \/ (exists b wa s, fst (python_tools w name st) = Fall b wa s).
Proof.
  unfold python_tools.
  destruct (_run_pylint w name st) as [pr st1] eqn:P.
  pose proof (run_pylint_shape w name st) as S1. rewrite P in S1. simpl in S1.
  destruct S1 as [[msg ->]|(E & _ & s & Hs)].
  - simpl. is_error.
  - unfold has_error, suggestions_of. rewrite E, Hs.
    destruct (_run_flake8 w name st1) as [fr st2] eqn:F.
    pose proof (run_flake8_shape w name st1) as S2. rewrite F in S2. simpl in S2.
    destruct S2 as [[msg ->]|E2].
    + simpl. is_error.
    + rewrite E2. right. simpl. eauto.
Qed.

(** C4.  Once the temporary file is written: when pylint's step returns an
    error, the analysis returns that very dictionary, whose three lists are
    empty, and starts no further process; when pylint's step succeeds and
    flake8's returns an error, the analysis returns flake8's dictionary,
    whose three lists are empty whatever pylint had found. *)
Theorem python_tool_error_aborts (w : world) (code : string) (st : state)
        (name : string) :
  named_temporary_file w ".py" code = Written name ->
  let pylint := _run_pylint w name (create name st) in
  let flake8 := _run_flake8 w name (snd pylint) in
  let final := _analyze_python w code st in
  (has_error (fst pylint) = true ->
   fst final = fst pylint
   /\ bugs (fst final) = [] /\ warnings (fst final) = []
   /\ suggestions (fst final) = Some []
   /\ invoked (snd final) = invoked (snd pylint))
  /\ (has_error (fst pylint) = false ->
      has_error (fst flake8) = true ->
      fst final = fst flake8
      /\ bugs (fst final) = [] /\ warnings (fst final) = []
      /\ suggestions (fst final) = Some []).
Proof.
  intros Htmp pylint flake8 final.
  subst final. unfold _analyze_python, python_tools. rewrite Htmp.
  fold pylint. destruct pylint as [pr st1] eqn:P. cbn [fst snd] in *.
  pose proof (run_pylint_shape w name (create name st)) as S1.
  fold pylint in S1. rewrite P in S1. cbn [fst] in S1.
  split.
  - intros E. rewrite E. cbn [fst snd].
    destruct S1 as [[msg ->]|(E1 & _)].
    + repeat split; try reflexivity. apply cleanup_invoked.
    + unfold has_error in E. rewrite E1 in E. discriminate.
  - intros E EF. rewrite E.
    destruct S1 as [[msg ->]|(E1 & _ & s & Hs)]; [discriminate|].
    unfold suggestions_of. rewrite Hs.
    subst flake8. destruct (_run_flake8 w name st1) as [fr st2] eqn:F.
    cbn [fst snd] in *. rewrite EF. cbn [fst].
    pose proof (run_flake8_shape w name st1) as S2. rewrite F in S2.
    cbn [fst] in S2.
    destruct S2 as [[msg ->]|E2].
    + repeat split; reflexivity.
    + unfold has_error in EF. rewrite E2 in EF. discriminate.
Qed.

Lemma python_tool_error_aborts_witness :
  bugs (fst (_run_pylint flake8_times_out "/tmp/tmpa1b2c3.py"
               (create "/tmp/tmpa1b2c3.py" Sample.st0)))
  = [ [ ("line", JInt 7); ("column", JInt 0); ("message", JStr "");
        ("type", JStr "error"); ("symbol", JStr "") ] ]
  /\ fst (_analyze_python flake8_times_out "import os" Sample.st0)
     = error_result "flake8 analysis timed out"
  /\ bugs (fst (_analyze_python flake8_times_out "import os" Sample.st0)) = [].
Proof.
  destruct (python_tool_error_aborts flake8_times_out "import os" Sample.st0
              "/tmp/tmpa1b2c3.py" eq_refl) as [_ H].
  destruct (H eq_refl eq_refl) as (H1 & H2 & _).
  split; [reflexivity|]. split; [exact H1|exact H2].
Defined.

(** ** The dispatcher *)

(** C5.  A language that is neither ["python"] nor ["javascript"] once
    lower-cased gets the error dictionary with three empty lists, whatever
    the code is, and the state is untouched: no file is created and no
    process is started. *)
Theorem analyze_unsupported (w : world) (code language : string) (st : state) :
  Text.lower language <> "python" ->
  Text.lower language <> "javascript" ->
  analyze w code language st
  = ({| bugs := []; warnings := []; suggestions := Some [];
        error := Some (unsupported (Text.lower language));
        summary := None |}, st).
Proof.
  intros Hp Hj. unfold analyze.
  apply String.eqb_neq in Hp. apply String.eqb_neq in Hj.
  now rewrite Hp, Hj.
Qed.

Lemma analyze_unsupported_witness :
  analyze Sample.bare "puts 1" "Ruby" Sample.st0
  = ({| bugs := []; warnings := []; suggestions := Some [];
        error := Some ("Language " ++ dq ++ "ruby" ++ dq
                       ++ " is not supported. Supported languages: python, javascript");
        summary := None |}, Sample.st0).
Proof.
  apply (analyze_unsupported Sample.bare "puts 1" "Ruby" Sample.st0);
    discriminate.
Defined.

(** C10.  The dispatcher is case-insensitive: a language and its lower-cased
    form get the same result and leave the same state; every spelling that
    lower-cases to ["python"] runs the Python pipeline and every spelling
    that lower-cases to ["javascript"] the JavaScript one; so do ["Python"]
    and ["PYTHON"], and ["JavaScript"]. *)
Theorem analyze_case_insensitive (w : world) (code language : string) (st : state) :
  analyze w code language st = analyze w code (Text.lower language) st
  /\ (Text.lower language = "python" ->
      analyze w code language st = _analyze_python w code st)
  /\ (Text.lower language = "javascript" ->
      analyze w code language st = _analyze_javascript w code st)
  /\ Text.lower "Python" = "python"
  /\ Text.lower "PYTHON" = "python"
  /\ analyze w code "Python" st = _analyze_python w code st
  /\ analyze w code "PYTHON" st = _analyze_python w code st
  /\ analyze w code "JavaScript" st = _analyze_javascript w code st.
Proof.
  repeat split; try reflexivity.
  - unfold analyze. now rewrite lower_idem.
  - intros L. unfold analyze. now rewrite L.
  - intros L. unfold analyze. now rewrite L.
Qed.

Lemma analyze_case_insensitive_witness :
  analyze all_clean "import os" "PyThOn" Sample.st0
  = ({| bugs := []; warnings := []; suggestions := Some [];
        error := None;
        summary := Some "Found 0 bugs, 0 warnings, 0 suggestions" |},
     {| files := [];
        invoked := [ ["pylint"; "--output-format=json"; "/tmp/tmpa1b2c3.py"];
                     ["flake8"; "--format=%(row)d:%(col)d:%(code)s:%(text)s";
                      "/tmp/tmpa1b2c3.py"] ] |})
  /\ analyze Sample.bare "var x = 1" "JAVASCRIPT" Sample.st0
     = _analyze_javascript Sample.bare "var x = 1" Sample.st0.
Proof.
  split.
  - destruct (analyze_case_insensitive all_clean "import os" "PyThOn" Sample.st0)
      as (_ & H & _).
    rewrite (H eq_refl). reflexivity.
  - destruct (analyze_case_insensitive Sample.bare "var x = 1" "JAVASCRIPT"
                Sample.st0) as (_ & _ & H & _).
    exact (H eq_refl).
Defined.

(** ** The fallback *)

(** C8.  Without an ESLint binary the analysis of ["var x = 1"] returns
    normally, with no error, no bug and no warning, and its suggestions hold
    the entry for line 1 whose message asks for [let] or [const] instead of
    [var] (after the one that asks for a semicolon). *)
Theorem fallback_var_suggestion (w : world) (st : state) :
  which w "eslint" = false ->
  _analyze_javascript w "var x = 1" st
  = ({| bugs := [];
        warnings := [];
        suggestions :=
          Some [ [ ("line", JInt 1);
                   ("message", JStr "Consider adding semicolon at end of statement");
                   ("type", JStr "style") ];
                 [ ("line", JInt 1);
                   ("message", JStr "Consider using let or const instead of var");
                   ("type", JStr "modern") ] ];
        error := None;
        summary := Some "Found 0 bugs, 0 warnings, 2 suggestions" |},
     st)
  /\ exists s,
      suggestions (fst (_analyze_javascript w "var x = 1" st)) = Some s
      /\ In [ ("line", JInt 1);
              ("message", JStr "Consider using let or const instead of var");
              ("type", JStr "modern") ] s
      /\ error (fst (_analyze_javascript w "var x = 1" st)) = None.
Proof.
  intros Hw. unfold _analyze_javascript. rewrite Hw.
  split; [reflexivity|].
  eexists. split; [reflexivity|]. split; [|reflexivity].
  right. left. reflexivity.
Qed.

Lemma fallback_var_suggestion_witness :
  option_map (@length dict)
    (suggestions (fst (_analyze_javascript Sample.bare "var x = 1" Sample.st0)))
  = Some 2
  /\ summary (fst (_analyze_javascript Sample.bare "var x = 1" Sample.st0))
     = Some "Found 0 bugs, 0 warnings, 2 suggestions".
Proof.
  destruct (fallback_var_suggestion Sample.bare Sample.st0 eq_refl) as [H _].
  rewrite H. split; reflexivity.
Defined.

(** ** Empty output *)

(** A non-zero exit of flake8 with nothing on its standard output is not an
    error of the analysis: the result is the clean one. *)
Lemma flake8_nonzero_exit_is_clean :
  run flake8_fails_silently (flake8_argv "/tmp/tmpa1b2c3.py")
  = Completed 1 "" "flake8: internal error"
  /\ fst (analyze flake8_fails_silently "import os" "python" Sample.st0)
     = {| bugs := []; warnings := []; suggestions := Some [];
          error := None;
          summary := Some "Found 0 bugs, 0 warnings, 0 suggestions" |}.
Proof. split; reflexivity. Qed.

(** C6, amended.  For pylint and for ESLint an empty standard output,
    whatever the exit status, ends the analysis with the error
    ["<tool> failed: "] followed by the tool's standard error, and three
    empty lists.  For flake8 neither the exit status nor the standard error
    is looked at: an empty standard output yields no entry and no error, and
    the analysis goes on to report what pylint found. *)
Theorem empty_stdout (w : world) (code : string) (st : state)
        (name : string) (rc : Z) (err : string) :
  (which w "pylint" = true ->
   named_temporary_file w ".py" code = Written name ->
   run w (pylint_argv name) = Completed rc "" err ->
   fst (_analyze_python w code st) = error_result ("pylint failed: " ++ err))
  /\ (which w "eslint" = true ->
      named_temporary_file w ".js" code = Written name ->
      run w (eslint_argv name) = Completed rc "" err ->
      fst (_analyze_javascript w code st) = error_result ("ESLint failed: " ++ err))
  /\ (which w "flake8" = true ->
      run w (flake8_argv name) = Completed rc "" err ->
      (forall st', fst (_run_flake8 w name st')
                   = {| bugs := []; warnings := []; suggestions := None;
                        error := None; summary := None |})
      /\ (named_temporary_file w ".py" code = Written name ->
          forall pr s,
            fst (_run_pylint w name (create name st)) = pr ->
            error pr = None ->
            suggestions pr = Some s ->
            fst (_analyze_python w code st)
            = summary_result (bugs pr) (warnings pr) s)).
Proof.
  split; [|split].
  - intros Hw Htmp Hrun.
    unfold _analyze_python, python_tools, _run_pylint.
    rewrite Htmp, Hw, Hrun. reflexivity.
  - intros Hw Htmp Hrun.
    unfold _analyze_javascript, eslint_tool.
    rewrite Hw, Htmp, Hrun. reflexivity.
  - intros Hw Hrun.
    assert (F : forall st', _run_flake8 w name st'
                            = ({| bugs := []; warnings := []; suggestions := None;
                                  error := None; summary := None |},
                               invoke (flake8_argv name) st')).
    { intros st'. unfold _run_flake8. rewrite Hw, Hrun. reflexivity. }
    split.
    + intros st'. now rewrite F.
    + intros Htmp pr s Hpr He Hs.
      unfold _analyze_python, python_tools. rewrite Htmp.
      destruct (_run_pylint w name (create name st)) as [pr' st1].
      cbn [fst] in Hpr. subst pr'.
      unfold has_error, suggestions_of. rewrite He, Hs, F.
      cbn [error bugs warnings]. now rewrite !app_nil_r.
Qed.

Lemma empty_stdout_witness :
  fst (_analyze_python
         (Sample.installed (fun _ => Completed 1 "" "No module named astroid")
                           Sample.loads false)
         "import os" Sample.st0)
  = error_result "pylint failed: No module named astroid"
  /\ fst (_analyze_python flake8_fails_silently "import os" Sample.st0)
     = summary_result [] [] [].
Proof.
  split.
  - apply (proj1 (empty_stdout
             (Sample.installed (fun _ => Completed 1 "" "No module named astroid")
                               Sample.loads false)
             "import os" Sample.st0 "/tmp/tmpa1b2c3.py" 1
             "No module named astroid"));
      reflexivity.
  - destruct (empty_stdout flake8_fails_silently "import os" Sample.st0
                "/tmp/tmpa1b2c3.py" 1 "flake8: internal error") as (_ & _ & H).
    destruct (H eq_refl eq_refl) as [_ H'].
    apply (H' eq_refl _ [] eq_refl); reflexivity.
Defined.

(** ** Timeouts and the temporary file *)

(** The handler of the [finally] clause swallows the [OSError]: the analysis
    reports the timeout and the temporary file is still on disk. *)
Lemma timeout_leaves_file_when_unlink_fails :
  fst (analyze timeout_and_unlink_fails "import os" "python" Sample.st0)
  = error_result "pylint analysis timed out"
  /\ path_exists "/tmp/tmpa1b2c3.py"
       (snd (analyze timeout_and_unlink_fails "import os" "python" Sample.st0))
     = true.
Proof. split; reflexivity. Qed.

Lemma cleanup_removes (w : world) (name : string) (st : state) :
  name <> "" ->
  unlink_raises w name = false ->
  path_exists name (cleanup w (Some name) st) = false.
Proof.
  intros N U. unfold cleanup.
  destruct name as [|c name']; [congruence|]. cbn [nonempty andb].
  destruct (path_exists (String c name') st) eqn:E; [|exact E].
  rewrite U. apply path_exists_remove.
Qed.

(** The ESLint step ends by returning an error dictionary or by falling
    through with the lists it built. *)
Lemma eslint_tool_end (w : world) (name : string) (st : state) :
  (exists msg, fst (eslint_tool w name st) = Return (error_result msg))
  \/ (exists b wa, fst (eslint_tool w name st) = Fall b wa []).
Proof.
  unfold eslint_tool.
  destruct (run w (eslint_argv name)) as [rc out err| |msg]; try is_error.
  destruct (nonempty out); [|is_error].
  destruct (json_loads w out) as [v| |msg]; try is_error.
  destruct (Py.iterate v) as [msg|output]; [is_error|].
  destruct (eslint_files output [] []) as [msg|[b wa]]; [is_error|].
  right. simpl. eauto.
Qed.

(** Whenever the name of the temporary file was recorded, the [finally]
    clause has removed the file by the time [_analyze_python] returns,
    unless [os.unlink] raised. *)
Lemma analyze_python_removes (w : world) (code : string) (st : state)
      (name : string) :
  name <> "" ->
  unlink_raises w name = false ->
  named_temporary_file w ".py" code = Written name
  \/ (exists msg, named_temporary_file w ".py" code = CloseRaised name msg) ->
  path_exists name (snd (_analyze_python w code st)) = false.
Proof.
  intros N U [H|[msg H]]; unfold _analyze_python; rewrite H.
  - destruct (python_tools w name (create name st)) as [e st1].
    destruct e; cbn [snd]; now apply cleanup_removes.
  - cbn [snd]. now apply cleanup_removes.
Qed.

Lemma analyze_javascript_removes (w : world) (code : string) (st : state)
      (name : string) :
  which w "eslint" = true ->
  name <> "" ->
  unlink_raises w name = false ->
  named_temporary_file w ".js" code = Written name
  \/ (exists msg, named_temporary_file w ".js" code = CloseRaised name msg) ->
  path_exists name (snd (_analyze_javascript w code st)) = false.
Proof.
  intros Hw N U [H|[msg H]]; unfold _analyze_javascript; rewrite Hw, H.
  - destruct (eslint_tool w name (create name st)) as [e st1].
    destruct e; cbn [snd]; now apply cleanup_removes.
  - cbn [snd]. now apply cleanup_removes.
Qed.

(** What the code does meet: a tool that does not end within the bound makes
    the analysis return the one error dictionary [<tool> analysis timed out],
    with three empty lists; and when the [finally] clause has a name to work
    with and [os.unlink] does not raise, the file is gone when the analysis
    returns. *)
Lemma timeout_result_and_cleanup (w : world) (code : string) (st : state)
        (name : string) :
  (which w "pylint" = true ->
   named_temporary_file w ".py" code = Written name ->
   run w (pylint_argv name) = TimeoutExpired ->
   fst (_analyze_python w code st) = error_result "pylint analysis timed out")
  /\ (which w "flake8" = true ->
      named_temporary_file w ".py" code = Written name ->
      has_error (fst (_run_pylint w name (create name st))) = false ->
      run w (flake8_argv name) = TimeoutExpired ->
      fst (_analyze_python w code st) = error_result "flake8 analysis timed out")
  /\ (which w "eslint" = true ->
      named_temporary_file w ".js" code = Written name ->
      run w (eslint_argv name) = TimeoutExpired ->
      fst (_analyze_javascript w code st) = error_result "ESLint analysis timed out")
  /\ (name <> "" ->
      unlink_raises w name = false ->
      named_temporary_file w ".py" code = Written name
      \/ (exists msg, named_temporary_file w ".py" code = CloseRaised name msg) ->
      path_exists name (snd (_analyze_python w code st)) = false)
  /\ (which w "eslint" = true ->
      name <> "" ->
      unlink_raises w name = false ->
      named_temporary_file w ".js" code = Written name
      \/ (exists msg, named_temporary_file w ".js" code = CloseRaised name msg) ->
      path_exists name (snd (_analyze_javascript w code st)) = false).
Proof.
  repeat match goal with |- _ /\ _ => split end.
  - intros Hw Htmp Hrun.
    unfold _analyze_python, python_tools, _run_pylint.
    rewrite Htmp, Hw, Hrun. reflexivity.
  - intros Hw Htmp He Hrun.
    unfold _analyze_python, python_tools. rewrite Htmp.
    pose proof (run_pylint_shape w name (create name st)) as S1.
    destruct (_run_pylint w name (create name st)) as [pr st1].
    cbn [fst] in *. rewrite He.
    destruct S1 as [[msg ->]|(_ & _ & s & Hs)]; [discriminate|].
    unfold suggestions_of. rewrite Hs.
    unfold _run_flake8. rewrite Hw, Hrun. reflexivity.
  - intros Hw Htmp Hrun.
    unfold _analyze_javascript, eslint_tool.
    rewrite Hw, Htmp, Hrun. reflexivity.
  - apply analyze_python_removes.
  - apply analyze_javascript_removes.
Qed.

(** C7.  The temporary file is not removed on every exit path.  The name is
    recorded after [f.write(code)]; when the write raises, the handler
    answers with the error and the [finally] clause, which has no name to
    work with, removes nothing: the file the block has created is still there
    when the analysis returns.  Both pipelines have the slip. *)
Theorem temp_file_left_when_write_raises (w : world) (code : string)
        (st : state) (name msg : string) :
  (named_temporary_file w ".py" code = WriteRaised name msg ->
   fst (_analyze_python w code st)
   = error_result ("Python analysis failed: " ++ msg)
   /\ path_exists name (snd (_analyze_python w code st)) = true)
  /\ (which w "eslint" = true ->
      named_temporary_file w ".js" code = WriteRaised name msg ->
      fst (_analyze_javascript w code st) = error_result ("ESLint error: " ++ msg)
      /\ path_exists name (snd (_analyze_javascript w code st)) = true).
Proof.
  split.
  - intros T. unfold _analyze_python. rewrite T. cbn [cleanup fst snd].
    split; [reflexivity|].
    unfold path_exists, create. cbn [files existsb].
    now rewrite String.eqb_refl.
  - intros Hw T. unfold _analyze_javascript. rewrite Hw, T.
    cbn [cleanup fst snd]. split; [reflexivity|].
    unfold path_exists, create. cbn [files existsb].
    now rewrite String.eqb_refl.
Qed.

Lemma temp_file_left_when_write_raises_witness :
  fst (analyze write_fails "import os" "python" Sample.st0)
  = error_result "Python analysis failed: [Errno 28] No space left on device"
  /\ path_exists "/tmp/tmpa1b2c3.py"
       (snd (analyze write_fails "import os" "python" Sample.st0))
     = true.
Proof.
  exact (proj1 (temp_file_left_when_write_raises write_fails "import os"
                  Sample.st0 "/tmp/tmpa1b2c3.py"
                  "[Errno 28] No space left on device") eq_refl).
Defined.

Lemma timeout_result_and_cleanup_witness :
  fst (_analyze_python pylint_times_out "import os" Sample.st0)
  = error_result "pylint analysis timed out"
  /\ path_exists "/tmp/tmpa1b2c3.py"
       (snd (_analyze_python pylint_times_out "import os" Sample.st0))
     = false.
Proof.
  destruct (timeout_result_and_cleanup pylint_times_out "import os" Sample.st0
              "/tmp/tmpa1b2c3.py") as (H1 & _ & _ & H4 & _).
  split.
  - apply H1; reflexivity.
  - apply H4; [discriminate|reflexivity|left; reflexivity].
Defined.

(** ** The shape of every result *)

Lemma error_result_shape (msg : string) : one_shape (error_result msg).
Proof.
  left. split.
  - repeat split. now exists msg.
  - intros [E _]. discriminate.
Qed.

Lemma summary_result_shape (b w s : list dict) : one_shape (summary_result b w s).
Proof.
  right. split.
  - split; [reflexivity|]. now eexists.
  - intros [[msg E] _]. discriminate.
Qed.

Lemma analyze_python_shape (w : world) (code : string) (st : state) :
  one_shape (fst (_analyze_python w code st)).
Proof.
  unfold _analyze_python.
  destruct (named_temporary_file w ".py" code) as [msg|name msg|name msg|name];
    try apply error_result_shape.
  pose proof (python_tools_end w name (create name st)) as E.
  destruct (python_tools w name (create name st)) as [e st1]. cbn [fst] in E.
  destruct E as [[msg ->]|(b & wa & s & ->)].
  - apply error_result_shape.
  - apply summary_result_shape.
Qed.

Lemma analyze_javascript_shape (w : world) (code : string) (st : state) :
  one_shape (fst (_analyze_javascript w code st)).
Proof.
  unfold _analyze_javascript.
  destruct (which w "eslint").
  - destruct (named_temporary_file w ".js" code) as [msg|name msg|name msg|name];
      try apply error_result_shape.
    pose proof (eslint_tool_end w name (create name st)) as E.
    destruct (eslint_tool w name (create name st)) as [e st1]. cbn [fst] in E.
    destruct E as [[msg ->]|(b & wa & ->)].
    + apply error_result_shape.
    + apply summary_result_shape.
  - destruct (fallback_loop 1 (Text.split newline code) [] []) as [wa s].
    apply summary_result_shape.
Qed.

(** C9.  Whatever the world answers, the dictionary [analyze] returns has
    exactly one of two shapes: an error text with three empty lists (and no
    summary), or no error and a summary text. *)
Theorem analyze_result_shape (w : world) (code language : string) (st : state) :
  let r := fst (analyze w code language st) in
  (error_shape r /\ ~ summary_shape r) \/ (summary_shape r /\ ~ error_shape r).
Proof.
  cbv zeta. fold (one_shape (fst (analyze w code language st))).
  unfold analyze.
  destruct (String.eqb (Text.lower language) "python").
  - apply analyze_python_shape.
  - destruct (String.eqb (Text.lower language) "javascript").
    + apply analyze_javascript_shape.
    + apply error_result_shape.
Qed.

(** * Further properties of the analyzer *)

(** ** What the runners do to the state *)

Lemma run_pylint_state (w : world) (file_path : string) (st : state) :
  snd (_run_pylint w file_path st)
  = if which w "pylint" then invoke (pylint_argv file_path) st else st.
Proof.
  unfold _run_pylint.
  destruct (which w "pylint"); simpl; [|reflexivity].
  destruct (run w (pylint_argv file_path)) as [rc out err| |msg]; simpl;
    try reflexivity.
  destruct (nonempty out); [|reflexivity].
  destruct (json_loads w out) as [v| |msg]; try reflexivity.
  destruct (Py.iterate v) as [msg|issues]; [reflexivity|].
  destruct (pylint_loop issues [] [] []) as [msg|[[b wa] s]]; reflexivity.
Qed.

Lemma run_flake8_state (w : world) (file_path : string) (st : state) :
  snd (_run_flake8 w file_path st)
  = if which w "flake8" then invoke (flake8_argv file_path) st else st.
Proof.
  unfold _run_flake8.
  destruct (which w "flake8"); simpl; [|reflexivity].
  destruct (run w (flake8_argv file_path)) as [rc out err| |msg]; simpl;
    try reflexivity.
  destruct (flake8_loop _ [] []) as [msg|[b wa]]; reflexivity.
Qed.

Lemma eslint_tool_state (w : world) (name : string) (st : state) :
  snd (eslint_tool w name st) = invoke (eslint_argv name) st.
Proof.
  unfold eslint_tool.
  destruct (run w (eslint_argv name)) as [rc out err| |msg]; try reflexivity.
  destruct (nonempty out); [|reflexivity].
  destruct (json_loads w out) as [v| |msg]; try reflexivity.
  destruct (Py.iterate v) as [msg|output]; [reflexivity|].
  destruct (eslint_files output [] []) as [msg|[b wa]]; reflexivity.
Qed.

Lemma run_pylint_missing (w : world) (file_path : string) (st : state) :
  which w "pylint" = false ->
  _run_pylint w file_path st = (error_result (install_hint "pylint"), st).
Proof. intros H. unfold _run_pylint. now rewrite H. Qed.

Lemma run_flake8_missing (w : world) (file_path : string) (st : state) :
  which w "flake8" = false ->
  _run_flake8 w file_path st = (error_result (install_hint "flake8"), st).
Proof. intros H. unfold _run_flake8. now rewrite H. Qed.

(** The state the tools of the Python pipeline leave: the files as they
    were, and at most two more processes started, pylint first. *)
Lemma python_tools_state (w : world) (name : string) (st : state) :
  files (snd (python_tools w name st)) = files st
  /\ exists l,
      invoked (snd (python_tools w name st)) = (invoked st ++ l)%list
      /\ (l = [] \/ l = [pylint_argv name]
          \/ l = [pylint_argv name; flake8_argv name]).
Proof.
  unfold python_tools.
  destruct (which w "pylint") eqn:Wp.
  - pose proof (run_pylint_state w name st) as S1. rewrite Wp in S1.
    destruct (_run_pylint w name st) as [pr st1]. cbn [snd] in S1. subst st1.
    assert (Stop : files (invoke (pylint_argv name) st) = files st
                   /\ exists l,
                       invoked (invoke (pylint_argv name) st)
                       = (invoked st ++ l)%list
                       /\ (l = [] \/ l = [pylint_argv name]
                           \/ l = [pylint_argv name; flake8_argv name])).
    { split; [reflexivity|]. exists [pylint_argv name]. auto. }
    destruct (has_error pr); [exact Stop|].
    destruct (suggestions_of pr); [exact Stop|].
    pose proof (run_flake8_state w name (invoke (pylint_argv name) st)) as S2.
    destruct (_run_flake8 w name (invoke (pylint_argv name) st)) as [fr st2].
    cbn [snd] in S2. subst st2.
    destruct (which w "flake8"); destruct (has_error fr); cbn [snd];
      try exact Stop.
    + split; [reflexivity|]. exists [pylint_argv name; flake8_argv name].
      simpl. rewrite <- app_assoc. auto.
    + split; [reflexivity|]. exists [pylint_argv name; flake8_argv name].
      simpl. rewrite <- app_assoc. auto.
  - rewrite (run_pylint_missing w name st Wp). simpl.
    split; [reflexivity|]. exists []. rewrite app_nil_r. auto.
Qed.

(** Every result of [analyze] is one of the two dictionaries the methods
    build: the error one or the summary one. *)
Lemma analyze_result_cases (w : world) (code language : string) (st : state) :
  (exists msg, fst (analyze w code language st) = error_result msg)
  \/ (exists b wa s, fst (analyze w code language st) = summary_result b wa s).
Proof.
  unfold analyze.
  destruct (String.eqb (Text.lower language) "python").
  - unfold _analyze_python.
    destruct (named_temporary_file w ".py" code) as [msg|name msg|name msg|name];
      try is_error.
    pose proof (python_tools_end w name (create name st)) as E.
    destruct (python_tools w name (create name st)) as [e st1]. cbn [fst] in E.
    destruct E as [[msg ->]|(b & wa & s & ->)]; [is_error|].
    right. simpl. eauto.
  - destruct (String.eqb (Text.lower language) "javascript"); [|is_error].
    unfold _analyze_javascript.
    destruct (which w "eslint").
    + destruct (named_temporary_file w ".js" code) as [msg|name msg|name msg|name];
        try is_error.
      pose proof (eslint_tool_end w name (create name st)) as E.
      destruct (eslint_tool w name (create name st)) as [e st1]. cbn [fst] in E.
      destruct E as [[msg ->]|(b & wa & ->)]; [is_error|].
      right. simpl. eauto.
    + destruct (fallback_loop 1 (Text.split newline code) [] []) as [wa s].
      right. simpl. eauto.
Qed.

(** ** The summary *)

(** X1.  A result of [analyze] without an error has a summary that reports
    the lengths of the very lists it carries. *)
Theorem analyze_summary_counts (w : world) (code language : string) (st : state) :
  error (fst (analyze w code language st)) = None ->
  exists s,
    suggestions (fst (analyze w code language st)) = Some s
    /\ summary (fst (analyze w code language st))
       = Some ("Found "
               ++ Text.of_nat (length (bugs (fst (analyze w code language st))))
               ++ " bugs, "
               ++ Text.of_nat (length (warnings (fst (analyze w code language st))))
               ++ " warnings, "
               ++ Text.of_nat (length s) ++ " suggestions").
Proof.
  intros E.
  destruct (analyze_result_cases w code language st)
    as [[msg H]|(b & wa & s & H)]; rewrite H in *.
  - discriminate.
  - exists s. split; reflexivity.
Qed.

Lemma analyze_summary_counts_witness :
  summary (fst (analyze flake8_fails_silently "import os" "python" Sample.st0))
  = Some "Found 0 bugs, 0 warnings, 0 suggestions".
Proof.
  destruct (analyze_summary_counts flake8_fails_silently "import os" "python"
              Sample.st0 eq_refl) as (s & Hs & H).
  vm_compute in Hs. injection Hs as <-.
  rewrite H. reflexivity.
Defined.

(** ** Processes *)

(** X2.  One call of [analyze] starts at most two processes, and only these:
    pylint alone, pylint then flake8, or ESLint alone, each on the temporary
    file the call has written. *)
Theorem analyze_invocations (w : world) (code language : string) (st : state) :
  exists l,
    invoked (snd (analyze w code language st)) = (invoked st ++ l)%list
    /\ (l = []
        \/ (exists name,
               named_temporary_file w ".py" code = Written name
               /\ (l = [pylint_argv name]
                   \/ l = [pylint_argv name; flake8_argv name]))
        \/ (exists name,
               named_temporary_file w ".js" code = Written name
               /\ l = [eslint_argv name])).
Proof.
  assert (Nothing : exists l : list (list string),
             invoked st = (invoked st ++ l)%list
             /\ (l = []
                 \/ (exists name,
                        named_temporary_file w ".py" code = Written name
                        /\ (l = [pylint_argv name]
                            \/ l = [pylint_argv name; flake8_argv name]))
                 \/ (exists name,
                        named_temporary_file w ".js" code = Written name
                        /\ l = [eslint_argv name]))).
  { exists []. rewrite app_nil_r. auto. }
  unfold analyze.
  destruct (String.eqb (Text.lower language) "python").
  - unfold _analyze_python.
    destruct (named_temporary_file w ".py" code) as [msg|name msg|name msg|name]
      eqn:T; cbn [snd]; try (rewrite cleanup_invoked; exact Nothing).
    destruct (python_tools_state w name (create name st)) as [_ (l & Hl & Cases)].
    destruct (python_tools w name (create name st)) as [e st1]. cbn [snd] in Hl.
    assert (I : invoked (cleanup w (Some name) st1) = (invoked st ++ l)%list).
    { rewrite cleanup_invoked. exact Hl. }
    exists l.
    destruct e; cbn [snd]; (split; [exact I|]);
      (destruct Cases as [->|C]; [now left|right; left; exists name; auto]).
  - destruct (String.eqb (Text.lower language) "javascript"); [|exact Nothing].
    unfold _analyze_javascript.
    destruct (which w "eslint").
    + destruct (named_temporary_file w ".js" code) as [msg|name msg|name msg|name]
        eqn:T; cbn [snd]; try (rewrite cleanup_invoked; exact Nothing).
      pose proof (eslint_tool_state w name (create name st)) as S.
      destruct (eslint_tool w name (create name st)) as [e st1]. cbn [snd] in S.
      subst st1. exists [eslint_argv name].
      destruct e; cbn [snd]; rewrite cleanup_invoked; (split; [reflexivity|]);
        right; right; exists name; auto.
    + destruct (fallback_loop 1 (Text.split newline code) [] []) as [wa s].
      exact Nothing.
Qed.

(** ** Missing tools and unreadable output *)

(** X5.  Without pylint the Python analysis answers with pylint's install
    hint and starts no process at all.  Without flake8 it answers with
    flake8's hint once pylint has run without error: what pylint found is
    dropped, and pylint is the only process started. *)
Theorem missing_python_linter (w : world) (code : string) (st : state)
        (name : string) :
  named_temporary_file w ".py" code = Written name ->
  (which w "pylint" = false ->
   fst (_analyze_python w code st) = error_result (install_hint "pylint")
   /\ invoked (snd (_analyze_python w code st)) = invoked st)
  /\ (which w "pylint" = true ->
      which w "flake8" = false ->
      has_error (fst (_run_pylint w name (create name st))) = false ->
      fst (_analyze_python w code st) = error_result (install_hint "flake8")
      /\ invoked (snd (_analyze_python w code st))
         = (invoked st ++ [pylint_argv name])%list).
Proof.
  intros T. split.
  - intros Wp. unfold _analyze_python, python_tools. rewrite T.
    rewrite (run_pylint_missing w name (create name st) Wp).
    cbn [has_error error error_result fst snd].
    split; [reflexivity|]. now rewrite cleanup_invoked.
  - intros Wp Wf E. unfold _analyze_python, python_tools. rewrite T.
    pose proof (run_pylint_state w name (create name st)) as S1.
    pose proof (run_pylint_shape w name (create name st)) as Sh.
    rewrite Wp in S1.
    destruct (_run_pylint w name (create name st)) as [pr st1].
    cbn [fst snd] in *. subst st1. rewrite E.
    destruct Sh as [[msg ->]|(_ & _ & s & Hs)]; [discriminate|].
    unfold suggestions_of. rewrite Hs.
    rewrite (run_flake8_missing w name _ Wf).
    cbn [has_error error error_result fst snd].
    split; [reflexivity|]. now rewrite cleanup_invoked.
Qed.

Lemma missing_python_linter_witness :
  fst (_analyze_python only_pylint "import os" Sample.st0)
  = error_result (install_hint "flake8").
Proof.
  refine (proj1 (proj2 (missing_python_linter only_pylint "import os" Sample.st0
                          "/tmp/tmpa1b2c3.py" eq_refl) eq_refl eq_refl eq_refl)).
Defined.

(** X6.  Output that [json.loads] cannot decode is an error of the whole
    analysis, for pylint and for ESLint alike: nothing is returned in its
    place. *)
Theorem undecodable_output (w : world) (code : string) (st : state)
        (name : string) (rc : Z) (out err : string) :
  out <> "" ->
  json_loads w out = JSONDecodeError ->
  (which w "pylint" = true ->
   named_temporary_file w ".py" code = Written name ->
   run w (pylint_argv name) = Completed rc out err ->
   fst (_analyze_python w code st) = error_result "Failed to parse pylint output")
  /\ (which w "eslint" = true ->
      named_temporary_file w ".js" code = Written name ->
      run w (eslint_argv name) = Completed rc out err ->
      fst (_analyze_javascript w code st)
      = error_result "Failed to parse ESLint output").
Proof.
  intros Hout Hloads.
  destruct out as [|c out']; [congruence|].
  split; intros Hw T Hrun.
  - unfold _analyze_python, python_tools, _run_pylint.
    rewrite T, Hw, Hrun. cbn [negb nonempty]. rewrite Hloads. reflexivity.
  - unfold _analyze_javascript, eslint_tool.
    rewrite Hw, T, Hrun. cbn [nonempty]. rewrite Hloads. reflexivity.
Qed.

Lemma undecodable_output_witness :
  fst (_analyze_python
         (Sample.installed (fun _ => Completed 0 "Traceback" "") Sample.loads false)
         "import os" Sample.st0)
  = error_result "Failed to parse pylint output".
Proof.
  refine (proj1 (undecodable_output
                   (Sample.installed (fun _ => Completed 0 "Traceback" "")
                                     Sample.loads false)
                   "import os" Sample.st0 "/tmp/tmpa1b2c3.py" 0 "Traceback" ""
                   ltac:(discriminate) eq_refl) eq_refl eq_refl eq_refl).
Defined.

Lemma pylint_loop_non_record (pre : list dict) (v : json) (post : list json) :
  (forall d, v <> JObj d) ->
  forall b w s,
    pylint_loop (map JObj pre ++ v :: post) b w s
    = inl ("'" ++ Py.type_name v ++ "' object has no attribute 'get'").
Proof.
  intros Hv. induction pre as [|r pre IH]; intros b w s; simpl.
  - destruct v; try reflexivity. now destruct (Hv d).
  - repeat match goal with
           | |- context [if ?c then _ else _] => destruct c
           end; apply IH.
Qed.

(** X7.  One element of pylint's array that is not a record makes the whole
    step an error, named after the type of that element; the records before
    it, whatever their types, are not returned. *)
Theorem pylint_non_record_aborts (w : world) (file_path : string) (st : state)
        (rc : Z) (out err : string)
        (pre : list dict) (v : json) (post : list json) :
  which w "pylint" = true ->
  run w (pylint_argv file_path) = Completed rc out err ->
  out <> "" ->
  json_loads w out = Loaded (JArr (map JObj pre ++ v :: post)) ->
  (forall d, v <> JObj d) ->
  fst (_run_pylint w file_path st)
  = error_result ("pylint error: '" ++ Py.type_name v
                  ++ "' object has no attribute 'get'").
Proof.
  intros Hw Hrun Hout Hloads Hv.
  unfold _run_pylint. rewrite Hw, Hrun. cbn [negb].
  destruct out as [|c out']; [congruence|]. cbn [nonempty].
  rewrite Hloads. cbn [Py.iterate].
  now rewrite (pylint_loop_non_record pre v post Hv).
Qed.

Lemma pylint_non_record_aborts_witness :
  fst (_run_pylint
         (Sample.installed (fun _ => Completed 2 "[..., 3]" "")
            (fun _ => Loaded (JArr [JObj [("type", JStr "error")]; JInt 3]))
            false)
         "/tmp/tmpa1b2c3.py" Sample.st0)
  = error_result "pylint error: 'int' object has no attribute 'get'".
Proof.
  apply (pylint_non_record_aborts
           (Sample.installed (fun _ => Completed 2 "[..., 3]" "")
              (fun _ => Loaded (JArr [JObj [("type", JStr "error")]; JInt 3]))
              false)
           "/tmp/tmpa1b2c3.py" Sample.st0 2 "[..., 3]" ""
           [ [("type", JStr "error")] ] (JInt 3) []);
    try reflexivity; discriminate.
Defined.

(** ** What the entries look like *)

Lemma get_is_str (d : dict) (k t : string) :
  Py.eq_str (Py.get d k) t = true -> Py.lookup d k = Some (JStr t).
Proof.
  unfold Py.get. destruct (Py.lookup d k) as [v|]; [|discriminate].
  destruct v; simpl; try discriminate.
  intros H. apply String.eqb_eq in H. now subst.
Qed.

Lemma pylint_item_type (issue : dict) (t : string) :
  Py.lookup issue "type" = Some (JStr t) -> has_type t (pylint_item issue).
Proof.
  intros H. unfold has_type, pylint_item, Py.get_default. simpl. now rewrite H.
Qed.

Lemma Forall_snoc {A : Type} (P : A -> Prop) (l : list A) (x : A) :
  Forall P l -> P x -> Forall P (l ++ [x]).
Proof. intros Hl Hx. apply Forall_app. split; [exact Hl|]. now constructor. Qed.

Lemma pylint_loop_types (issues : list json) :
  forall b w s b' w' s',
    Forall (has_type "error") b ->
    Forall (has_type "warning") w ->
    Forall (fun it => has_type "convention" it \/ has_type "refactor" it) s ->
    pylint_loop issues b w s = inr (b', w', s') ->
    Forall (has_type "error") b'
    /\ Forall (has_type "warning") w'
    /\ Forall (fun it => has_type "convention" it \/ has_type "refactor" it) s'.
Proof.
  induction issues as [|v rest IH]; intros b w s b' w' s' Hb Hw Hs;
    cbn [pylint_loop].
  - intros [= <- <- <-]. auto.
  - destruct (Py.as_dict v) as [msg|issue]; [discriminate|]. cbv zeta.
    destruct (Py.eq_str (Py.get issue "type") "error") eqn:E1.
    { apply IH; auto. apply Forall_snoc; auto.
      apply pylint_item_type. now apply get_is_str. }
    destruct (Py.eq_str (Py.get issue "type") "warning") eqn:E2.
    { apply IH; auto. apply Forall_snoc; auto.
      apply pylint_item_type. now apply get_is_str. }
    destruct (Py.in_strs (Py.get issue "type") ["convention"; "refactor"]) eqn:E3.
    { apply IH; auto. apply Forall_snoc; auto.
      unfold Py.in_strs in E3. simpl in E3.
      destruct (Py.eq_str (Py.get issue "type") "convention") eqn:E4.
      - left. apply pylint_item_type. now apply get_is_str.
      - right. apply pylint_item_type. apply get_is_str.
        simpl in E3. now rewrite orb_false_r in E3. }
    apply IH; auto.
Qed.

(** X8.  Whatever pylint prints, every entry [_run_pylint] returns among the
    bugs carries the type ["error"], every entry among the warnings the type
    ["warning"], and every suggestion ["convention"] or ["refactor"]. *)
Theorem run_pylint_entry_types (w : world) (file_path : string) (st : state) :
  Forall (has_type "error") (bugs (fst (_run_pylint w file_path st)))
  /\ Forall (has_type "warning") (warnings (fst (_run_pylint w file_path st)))
  /\ forall s,
      suggestions (fst (_run_pylint w file_path st)) = Some s ->
      Forall (fun it => has_type "convention" it \/ has_type "refactor" it) s.
Proof.
  assert (Empty : forall msg,
             Forall (has_type "error") (bugs (error_result msg))
             /\ Forall (has_type "warning") (warnings (error_result msg))
             /\ forall s, suggestions (error_result msg) = Some s ->
                  Forall (fun it => has_type "convention" it
                                    \/ has_type "refactor" it) s).
  { intros msg. repeat split; try constructor. intros s [= <-]. constructor. }
  unfold _run_pylint.
  destruct (which w "pylint"); cbn [negb fst]; [|apply Empty].
  destruct (run w (pylint_argv file_path)) as [rc out err| |msg]; cbn [fst];
    try apply Empty.
  destruct (nonempty out); [|apply Empty].
  destruct (json_loads w out) as [v| |msg]; try apply Empty.
  destruct (Py.iterate v) as [msg|issues]; [apply Empty|].
  destruct (pylint_loop issues [] [] []) as [msg|[[b wa] s]] eqn:L;
    [apply Empty|].
  destruct (pylint_loop_types issues [] [] [] b wa s) as (Hb & Hw & Hs);
    auto.
  cbn [fst bugs warnings suggestions]. repeat split; auto.
  now intros s0 [= <-].
Qed.

Lemma run_pylint_entry_types_witness :
  Forall (has_type "error")
    [pylint_item [("type", JStr "error"); ("line", JInt 7)]]
  /\ Forall (fun it => has_type "convention" it \/ has_type "refactor" it) [].
Proof.
  destruct (run_pylint_entry_types
              (Sample.installed (fun _ => Completed 2 Sample.two_records "")
                                Sample.loads false)
              "/tmp/tmpa1b2c3.py" Sample.st0) as (Hb & _ & Hs).
  split; [exact Hb|exact (Hs [] eq_refl)].
Defined.



(** ** How the Python pipeline merges *)

(** X10.  When neither tool returns an error, the Python analysis returns
    pylint's bugs followed by flake8's, pylint's warnings followed by
    flake8's, and pylint's suggestions alone, with the summary of these
    lists. *)
Theorem analyze_python_merges (w : world) (code : string) (st : state)
        (name : string) :
  named_temporary_file w ".py" code = Written name ->
  let pylint := _run_pylint w name (create name st) in
  let flake8 := _run_flake8 w name (snd pylint) in
  has_error (fst pylint) = false ->
  has_error (fst flake8) = false ->
  exists s,
    suggestions (fst pylint) = Some s
    /\ fst (_analyze_python w code st)
       = summary_result (bugs (fst pylint) ++ bugs (fst flake8))
                        (warnings (fst pylint) ++ warnings (fst flake8)) s.
Proof.
  intros T pylint flake8 E1 E2.
  unfold _analyze_python, python_tools. rewrite T.
  pose proof (run_pylint_shape w name (create name st)) as Sh.
  fold pylint in Sh |- *.
  destruct pylint as [pr st1]. cbn [fst snd] in *.
  rewrite E1.
  destruct Sh as [[msg ->]|(_ & _ & s & Hs)]; [discriminate|].
  unfold suggestions_of. rewrite Hs.
  subst flake8. destruct (_run_flake8 w name st1) as [fr st2].
  cbn [fst] in *. rewrite E2. exists s. split; reflexivity.
Qed.

Lemma analyze_python_merges_witness :
  bugs (fst (_analyze_python both_report "import os" Sample.st0))
  = [ pylint_item [("type", JStr "error"); ("line", JInt 7)];
      flake8_item 3 5 "E501" "line too long" ].
Proof.
  destruct (analyze_python_merges both_report "import os" Sample.st0
              "/tmp/tmpa1b2c3.py" eq_refl eq_refl eq_refl) as (s & _ & H).
  rewrite H. reflexivity.
Defined.

(** ** The JavaScript analysis *)

Lemma severity_default (issue : dict) :
  Py.eq_int (Py.get_default issue "severity" (JInt 1)) 2
  = Py.eq_int (Py.get issue "severity") 2.
Proof.
  unfold Py.get_default, Py.get.
  now destruct (Py.lookup issue "severity").
Qed.

Lemma eslint_messages_types (messages : list json) :
  forall b w b' w',
    Forall (has_type "error") b ->
    Forall (has_type "warning") w ->
    eslint_messages messages b w = inr (b', w') ->
    Forall (has_type "error") b' /\ Forall (has_type "warning") w'.
Proof.
  induction messages as [|v rest IH]; intros b w b' w' Hb Hw;
    cbn [eslint_messages].
  - intros [= <- <-]. auto.
  - destruct (Py.as_dict v) as [msg|issue]; [discriminate|]. cbv zeta.
    destruct (Py.eq_int (Py.get issue "severity") 2) eqn:E.
    + apply IH; auto. apply Forall_snoc; auto.
      unfold has_type, eslint_item. simpl. now rewrite severity_default, E.
    + apply IH; auto. apply Forall_snoc; auto.
      unfold has_type, eslint_item. simpl. now rewrite severity_default, E.
Qed.

Lemma eslint_files_types (output : list json) :
  forall b w b' w',
    Forall (has_type "error") b ->
    Forall (has_type "warning") w ->
    eslint_files output b w = inr (b', w') ->
    Forall (has_type "error") b' /\ Forall (has_type "warning") w'.
Proof.
  induction output as [|v rest IH]; intros b w b' w' Hb Hw;
    cbn [eslint_files].
  - intros [= <- <-]. auto.
  - destruct (Py.as_dict v) as [msg|file]; [discriminate|].
    destruct (Py.iterate _) as [msg|messages]; [discriminate|].
    destruct (eslint_messages messages b w) as [msg|[b1 w1]] eqn:M;
      [discriminate|].
    destruct (eslint_messages_types messages b w b1 w1 Hb Hw M) as [Hb1 Hw1].
    now apply IH.
Qed.

(** The fallback loop appends, line after line, what [fallback_line] gives
    for the numbered lines. *)
Lemma fallback_loop_flat_map (lines : list string) :
  forall i w s,
    fallback_loop i lines w s
    = ((w ++ flat_map (fun p => snd (fallback_line (fst p) (snd p)))
                      (enumerate i lines))%list,
       (s ++ flat_map (fun p => fst (fallback_line (fst p) (snd p)))
                      (enumerate i lines))%list).
Proof.
  unfold enumerate.
  induction lines as [|line rest IH]; intros i w s; cbn [fallback_loop].
  - simpl. now rewrite !app_nil_r.
  - destruct (fallback_line i line) as [s1 w1] eqn:L.
    rewrite IH. cbn [length seq combine flat_map fst snd].
    rewrite L. cbn [fst snd]. now rewrite !app_assoc.
Qed.

Lemma in_enumerate (start : nat) (lines : list string) (i : nat) (line : string) :
  In (i, line) (enumerate start lines) ->
  start <= i < start + length lines.
Proof.
  unfold enumerate. intros H. apply in_combine_l in H.
  apply in_seq in H. lia.
Qed.

(** Without ESLint: the result is the summary of what the loop has built,
    and the state is untouched. *)
Lemma fallback_result (w : world) (code : string) (st : state) :
  which w "eslint" = false ->
  _analyze_javascript w code st
  = (summary_result []
       (flat_map (fun p => snd (fallback_line (fst p) (snd p)))
                 (enumerate 1 (Text.split newline code)))
       (flat_map (fun p => fst (fallback_line (fst p) (snd p)))
                 (enumerate 1 (Text.split newline code))),
     st).
Proof.
  intros Hw. unfold _analyze_javascript. rewrite Hw.
  now rewrite fallback_loop_flat_map.
Qed.

Lemma fallback_item_line (lo hi i : nat) (message type : string) :
  lo <= i <= hi -> line_between lo hi (fallback_item i message type).
Proof. intros H. exists i. split; [reflexivity|exact H]. Qed.

Lemma fallback_line_between (lo hi i : nat) (line : string) :
  lo <= i <= hi ->
  Forall (line_between lo hi) (fst (fallback_line i line))
  /\ Forall (line_between lo hi) (snd (fallback_line i line))
  /\ Forall (has_type "warning") (snd (fallback_line i line)).
Proof.
  intros H. unfold fallback_line, when. cbn [fst snd].
  repeat match goal with
         | |- context [if ?c then _ else _] => destruct c
         end;
    repeat split; cbn [app];
    repeat (constructor; try (apply fallback_item_line; exact H);
            try reflexivity).
Qed.

(** X11.  Without ESLint the JavaScript analysis never fails, never reports
    a bug and touches neither files nor processes; every entry it returns is
    on a line numbered from 1 to the number of lines of the code, and every
    warning carries the type ["warning"]. *)
Theorem fallback_entries (w : world) (code : string) (st : state) :
  which w "eslint" = false ->
  exists wa s,
    _analyze_javascript w code st = (summary_result [] wa s, st)
    /\ Forall (line_between 1 (length (Text.split newline code))) wa
    /\ Forall (line_between 1 (length (Text.split newline code))) s
    /\ Forall (has_type "warning") wa.
Proof.
  intros Hw. rewrite (fallback_result w code st Hw).
  do 2 eexists. split; [reflexivity|].
  set (lines := Text.split newline code).
  assert (R : forall p, In p (enumerate 1 lines) ->
                        1 <= fst p <= length lines).
  { intros [i line] H. apply in_enumerate in H. cbn [fst]. lia. }
  repeat split; apply Forall_flat_map, Forall_forall; intros p Hp;
    apply (fallback_line_between 1 (length lines) (fst p) (snd p) (R p Hp)).
Qed.

Lemma fallback_entries_witness :
  exists wa s,
    _analyze_javascript Sample.bare "" Sample.st0
    = (summary_result [] wa s, Sample.st0)
    /\ Forall (line_between 1 1) wa
    /\ Forall (line_between 1 1) s
    /\ Forall (has_type "warning") wa.
Proof. exact (fallback_entries Sample.bare "" Sample.st0 eq_refl). Defined.

(** X12.  Whatever ESLint prints and whether it is installed or not, every
    bug the JavaScript analysis returns carries the type ["error"] and every
    warning the type ["warning"]; and with ESLint installed it makes no
    suggestion at all. *)
Theorem analyze_javascript_entry_types (w : world) (code : string) (st : state) :
  Forall (has_type "error") (bugs (fst (_analyze_javascript w code st)))
  /\ Forall (has_type "warning") (warnings (fst (_analyze_javascript w code st)))
  /\ (which w "eslint" = true ->
      suggestions (fst (_analyze_javascript w code st)) = Some []).
Proof.
  destruct (which w "eslint") eqn:Hw.
  - unfold _analyze_javascript. rewrite Hw.
    assert (Empty : forall msg,
               Forall (has_type "error") (bugs (error_result msg))
               /\ Forall (has_type "warning") (warnings (error_result msg))
               /\ (true = true -> suggestions (error_result msg) = Some [])).
    { intros msg. repeat split; constructor. }
    destruct (named_temporary_file w ".js" code) as [msg|name msg|name msg|name];
      cbn [fst]; try apply Empty.
    unfold eslint_tool.
    destruct (run w (eslint_argv name)) as [rc out err| |msg]; cbn [fst];
      try apply Empty.
    destruct (nonempty out); [|apply Empty].
    destruct (json_loads w out) as [v| |msg]; try apply Empty.
    destruct (Py.iterate v) as [msg|output]; [apply Empty|].
    destruct (eslint_files output [] []) as [msg|[b wa]] eqn:L; [apply Empty|].
    destruct (eslint_files_types output [] [] b wa (Forall_nil _) (Forall_nil _) L)
      as [Hb Hwa].
    cbn [fst summary_result bugs warnings suggestions]. auto.
  - destruct (fallback_entries w code st Hw) as (wa & s & -> & _ & _ & T).
    cbn [fst summary_result bugs warnings]. repeat split; auto.
    discriminate.
Qed.

Lemma analyze_javascript_entry_types_witness :
  suggestions
    (fst (_analyze_javascript
            (Sample.installed (fun _ => Completed 1 eslint_report "")
                              eslint_loads false)
            "var x = 1" Sample.st0))
  = Some [].
Proof.
  destruct (analyze_javascript_entry_types
              (Sample.installed (fun _ => Completed 1 eslint_report "")
                                eslint_loads false)
              "var x = 1" Sample.st0) as (_ & _ & H).
  exact (H eq_refl).
Defined.

(** ** The fallback's expressions as plain tests *)

Lemma prefix_cons (a b : ascii) (p s : string) :
  String.prefix (String a p) (String b s) = Ascii.eqb a b && String.prefix p s.
Proof.
  cbn [String.prefix]. destruct (ascii_dec a b) as [->|N].
  - now rewrite Ascii.eqb_refl.
  - apply Ascii.eqb_neq in N. now rewrite N.
Qed.



Lemma matches_loose_eq (prev : option ascii) (s : string) :
  Re.matches Re.loose_eq prev s (fun _ _ => true)
  = String.prefix "==" s && negb (String.prefix "===" s).
Proof.
  unfold Re.loose_eq. cbn [Re.Lit Re.matches].
  destruct s as [|a [|b [|c t]]]; rewrite ?prefix_cons; cbn [String.prefix];
    try reflexivity;
    destruct (Ascii.eqb "=" a); try reflexivity;
    destruct (Ascii.eqb "=" b); try reflexivity;
    destruct (Ascii.eqb "=" c); try reflexivity; now destruct t.
Qed.

(** The look-ahead of [==(?!=)] does not narrow the search: the last two
    signs of any run of [=] are followed by something else. *)
Lemma search_loose_eq (s : string) : Re.search Re.loose_eq s = contains "==" s.
Proof.
  unfold Re.search. generalize (@None ascii).
  induction s as [|c t IH]; intros prev; cbn [Re.search_from contains];
    rewrite matches_loose_eq; [reflexivity|].
  rewrite IH.
  destruct (String.prefix "==" (String c t)) eqn:P2; [|reflexivity].
  destruct (String.prefix "===" (String c t)) eqn:P3; [|reflexivity].
  cbn [andb negb orb].
  rewrite prefix_cons in P3. apply andb_prop in P3. destruct P3 as [_ P].
  destruct t; cbn [contains]; now rewrite P.
Qed.




(** X14.  Without ESLint a line gets the strict-equality suggestion exactly
    when it contains [==] anywhere, so also when its only equality operators
    are [===] or [!==]. *)
Theorem fallback_strict_equality (w : world) (code : string) (st : state)
        (i : nat) :
  which w "eslint" = false ->
  forall s,
    suggestions (fst (_analyze_javascript w code st)) = Some s ->
    (In (fallback_item i
           "Use strict equality (===) instead of loose equality (==)"
           "best_practice") s
     <-> exists line,
          In (i, line) (enumerate 1 (Text.split newline code))
          /\ contains "==" line = true).
Proof.
  intros Hw s. rewrite (fallback_result w code st Hw).
  cbn [fst summary_result suggestions]. intros [= <-].
  rewrite in_flat_map. split.
  - intros ([j line] & Hp & Hin). cbn [fst snd] in Hin.
    unfold fallback_line, when in Hin. cbn [fst] in Hin.
    rewrite search_loose_eq in Hin.
    repeat rewrite in_app_iff in Hin.
    assert (E : j = i /\ contains "==" line = true).
    { destruct Hin as [H|[H|[H|H]]];
        match type of H with
        | In _ (if ?c then _ else _) => destruct c eqn:C
        end;
        try (now destruct H);
        destruct H as [H|[]]; try discriminate H.
      injection H as H. apply Nat2Z.inj in H. auto. }
    destruct E as [-> E]. now exists line.
  - intros (line & Hp & E). exists (i, line). split; [exact Hp|].
    cbn [fst snd]. unfold fallback_line, when. cbn [fst].
    rewrite search_loose_eq, E.
    repeat rewrite in_app_iff. right. right. left. now left.
Qed.

Lemma fallback_strict_equality_witness :
  In (fallback_item 1 "Use strict equality (===) instead of loose equality (==)"
        "best_practice")
     [ fallback_item 1 "Use strict equality (===) instead of loose equality (==)"
         "best_practice" ].
Proof.
  apply (fallback_strict_equality Sample.bare "if (a === b) {" Sample.st0 1
           eq_refl _ eq_refl).
  exists "if (a === b) {". split; [now left|reflexivity].
Defined.

(** ** [int()] on the edges *)

(** [int()] does not skip U+001C..U+001F, which [str.strip] removes; it does
    skip U+0085 and U+00A0. *)
Lemma int_white_space :
  Text.strip (String "028" "5") = "5"
  /\ Text.int (String "028" "5")
     = inl "invalid literal for int() with base 10: '\x1c5'"
  /\ Text.int (String "160" (String "5" (String "133" EmptyString))) = inr 5%Z.
Proof. repeat split. Qed.

(** A separator that begins a line inside the output is not stripped, and
    the row of that line is not a numeral: the step is an error. *)
Lemma flake8_separator_inside_output :
  fst (_run_flake8
         (Sample.installed
            (fun _ => Completed 1
                        ("1:1:E1:a" ++ String newline (String "028" "3:5:E501:x"))
                        "")
            Sample.loads false)
         "/tmp/tmpa1b2c3.py" Sample.st0)
  = error_result "flake8 error: invalid literal for int() with base 10: '\x1c3'".
Proof. reflexivity. Qed.

(** ** Reading back what flake8 prints *)



Lemma digit_not_space (c : ascii) :
  Text.isdecimal c = true -> Text.isspace c = false.
Proof. destruct c as [[] [] [] [] [] [] [] []]; try discriminate; reflexivity. Qed.


Lemma rstrip_digits (s : string) : digit_string s = true -> Text.rstrip s = s.
Proof.
  induction s as [|c r IH]; [reflexivity|]. simpl.
  intros H. apply andb_prop in H. destruct H as [Hc Hr].
  rewrite (IH Hr), (digit_not_space c Hc). now destruct r.
Qed.

Lemma strip_digits (s : string) : digit_string s = true -> Text.strip s = s.
Proof.
  intros H. unfold Text.strip.
  assert (L : Text.lstrip s = s).
  { destruct s as [|c r]; [reflexivity|]. simpl in *.
    apply andb_prop in H. destruct H as [Hc _].
    now rewrite (digit_not_space c Hc). }
  rewrite L. now apply rstrip_digits.
Qed.



Lemma digit_head (c : ascii) (r : string) :
  Text.isdecimal c = true ->
  Text.skip_int_space (String c r) = String c r
  /\ match String c r with
     | String "+" t => (false, t)
     | String "-" t => (true, t)
     | _ => (false, String c r)
     end = (false, String c r)
  /\ Text.startswith "_" (String c r) = false.
Proof.
  destruct c as [[] [] [] [] [] [] [] []]; try discriminate;
    intros _; repeat split; reflexivity.
Qed.




Lemma scan_digit_string (s : string) :
  digit_string s = true ->
  forall acc count,
    exists v,
      Text.scan acc count false s
      = Some (v, count + String.length s, EmptyString).
Proof.
  induction s as [|c r IH]; intros H acc count.
  - exists acc. cbn [Text.scan String.length]. now rewrite Nat.add_0_r.
  - cbn [digit_string] in H. apply andb_prop in H. destruct H as [Hc Hr].
    cbn [Text.scan String.length]. rewrite Hc.
    destruct (IH Hr (10 * acc + Z.of_nat (Text.code c - 48))%Z (S count))
      as [v E].
    exists v. rewrite E. now rewrite Nat.add_succ_r.
Qed.

(** [int()] refuses a numeral of more digits than its cap, with the message
    that tells how many digits it has. *)
Lemma int_over_limit (s : string) :
  digit_string s = true ->
  Text.max_str_digits < String.length s ->
  Text.int s
  = inl ("Exceeds the limit (" ++ Text.of_nat Text.max_str_digits
         ++ " digits) for integer string conversion: value has "
         ++ Text.of_nat (String.length s)
         ++ " digits; use sys.set_int_max_str_digits() to increase the limit").
Proof.
  intros D L. unfold Text.int, Text.parse_int.
  destruct s as [|c r]; [cbn [String.length] in L; lia|].
  pose proof D as D'. cbn [digit_string] in D'. apply andb_prop in D'.
  destruct D' as [Hc _].
  destruct (digit_head c r Hc) as (H1 & H2 & H3).
  rewrite H1, H2. cbn [fst snd]. rewrite H3.
  destruct (scan_digit_string (String c r) D 0%Z 0) as [v E]. rewrite E.
  rewrite Nat.add_0_l.
  apply Nat.ltb_lt in L. now rewrite L.
Qed.







(** * Properties of the [/analyze] route *)

Lemma analyze_answer (w : world) (code language : string) (st : state) :
  match summary (fst (analyze w code language st)) with
  | Some _ => True
  | None => error (fst (analyze w code language st)) <> None
  end.
Proof.
  destruct (analyze_result_cases w code language st)
    as [[msg ->]|(b & wa & s & ->)]; simpl; [discriminate|exact I].
Qed.

(** Past its checks the route answers by [answer]: the branch that would
    miss the ['summary'] key is never taken. *)
Lemma route_answer (w : world) (code language : string) (st : state) :
  (let '(results, st') := analyze w code language st in
   match error results with
   | Some e => ({| status := 500; content := Failure e |}, st')
   | None =>
       match summary results with
       | Some _ => ({| status := 200; content := Success results |}, st')
       | None => (server_error "'summary'", st')
       end
   end)
  = (answer (fst (analyze w code language st)),
     snd (analyze w code language st)).
Proof.
  pose proof (analyze_answer w code language st) as A.
  destruct (analyze w code language st) as [r st']. cbn [fst snd] in *.
  unfold answer. destruct (error r); [reflexivity|].
  destruct (summary r); [reflexivity|]. now destruct A.
Qed.

Ltac answers_500 :=
  right; right; split; [reflexivity|eexists; reflexivity].

Ltac answers_400 :=
  right; left; split; [reflexivity|split; [eexists; reflexivity|reflexivity]].

(** X16.  Every answer of the route has one of three shapes: status 200
    with the results of an analysis that has no error and has a summary;
    status 400 with an error text, nothing having been analysed (no file, no
    process); status 500 with an error text. *)
Theorem route_response_shape (w : world) (request : get_json_outcome)
        (st : state) :
  (status (fst (analyze_code w request st)) = 200
   /\ exists r, content (fst (analyze_code w request st)) = Success r
                /\ error r = None
                /\ exists text, summary r = Some text)
  \/ (status (fst (analyze_code w request st)) = 400
      /\ (exists msg, content (fst (analyze_code w request st)) = Failure msg)
      /\ snd (analyze_code w request st) = st)
  \/ (status (fst (analyze_code w request st)) = 500
      /\ exists msg, content (fst (analyze_code w request st)) = Failure msg).
Proof.
  unfold analyze_code.
  destruct request as [data|msg]; [|answers_500].
  destruct (Py.as_dict data) as [msg|d]; [answers_500|].
  destruct (as_str (Py.get_default d "language" (JStr "python")) "lower")
    as [msg|l]; [answers_500|].
  destruct (as_str (Py.get_default d "code" (JStr "")) "strip")
    as [msg|code]; [answers_500|].
  destruct (negb (nonempty (Text.strip code))); [answers_400|].
  destruct (too_long code); [answers_400|].
  destruct (negb (supported (Text.lower l))); [answers_400|].
  rewrite route_answer. cbn [fst snd]. unfold answer.
  destruct (analyze_result_cases w code (Text.lower l) st)
    as [[msg ->]|(b & wa & s & ->)]; cbn [error error_result summary_result].
  - answers_500.
  - left. split; [reflexivity|]. exists (summary_result b wa s).
    repeat split. now eexists.
Qed.

(** X17.  A request whose code is a non-blank text of at most 100000
    characters and whose language, lower-cased, is ["python"] gets the answer
    made from the Python pipeline: status 500 with the pipeline's error, or
    status 200 with its results; likewise ["javascript"] and the JavaScript
    pipeline.  The analyzer's own refusal of a language is never reached. *)
Theorem route_runs_pipeline (w : world) (d : dict) (code l : string)
        (st : state) :
  Py.lookup d "code" = Some (JStr code) ->
  Py.get_default d "language" (JStr "python") = JStr l ->
  Text.strip code <> "" ->
  too_long code = false ->
  (Text.lower l = "python" ->
   analyze_code w (Body (JObj d)) st
   = (answer (fst (_analyze_python w code st)),
      snd (_analyze_python w code st)))
  /\ (Text.lower l = "javascript" ->
      analyze_code w (Body (JObj d)) st
      = (answer (fst (_analyze_javascript w code st)),
         snd (_analyze_javascript w code st))).
Proof.
  intros Hc Hl Hs Ht.
  assert (S : negb (nonempty (Text.strip code)) = false).
  { destruct (Text.strip code); [congruence|reflexivity]. }
  assert (C : Py.get_default d "code" (JStr "") = JStr code).
  { unfold Py.get_default. now rewrite Hc. }
  split; intros L; unfold analyze_code; cbn [Py.as_dict]; cbv zeta;
    rewrite C, Hl; cbn [as_str];
    rewrite S, Ht, L; cbn [supported String.eqb negb orb];
    rewrite route_answer; reflexivity.
Qed.

Lemma route_runs_pipeline_witness :
  analyze_code all_clean
    (Body (JObj [("code", JStr "import os"); ("language", JStr "Python")]))
    Sample.st0
  = ({| status := 200; content := Success (summary_result [] [] []) |},
     {| files := [];
        invoked := [pylint_argv "/tmp/tmpa1b2c3.py";
                    flake8_argv "/tmp/tmpa1b2c3.py"] |}).
Proof.
  destruct (route_runs_pipeline all_clean
              [("code", JStr "import os"); ("language", JStr "Python")]
              "import os" "Python" Sample.st0 eq_refl eq_refl) as [H _].
  - discriminate.
  - reflexivity.
  - rewrite (H eq_refl). reflexivity.
Defined.

(** X18.  The route refuses, with status 400 and without analysing
    anything, in this order: code that is missing or blank, then code of
    more than 100000 characters, then a language that is neither ["python"]
    nor ["javascript"] once lower-cased (the answer names the lower-cased
    language). *)
Theorem route_refuses (w : world) (d : dict) (code l : string) (st : state) :
  Py.get_default d "code" (JStr "") = JStr code ->
  Py.get_default d "language" (JStr "python") = JStr l ->
  (Text.strip code = "" ->
   analyze_code w (Body (JObj d)) st = (bad_request "No code provided", st))
  /\ (Text.strip code <> "" ->
      too_long code = true ->
      analyze_code w (Body (JObj d)) st
      = (bad_request "Code size exceeds 100KB limit", st))
  /\ (Text.strip code <> "" ->
      too_long code = false ->
      supported (Text.lower l) = false ->
      analyze_code w (Body (JObj d)) st
      = (bad_request ("Unsupported language: " ++ Text.lower l), st)).
Proof.
  intros C L.
  assert (S : Text.strip code <> "" -> negb (nonempty (Text.strip code)) = false).
  { destruct (Text.strip code); [congruence|reflexivity]. }
  repeat split.
  - intros E. unfold analyze_code. cbn [Py.as_dict]. cbv zeta.
    rewrite C, L. cbn [as_str]. now rewrite E.
  - intros E T. unfold analyze_code. cbn [Py.as_dict]. cbv zeta.
    rewrite C, L. cbn [as_str]. now rewrite (S E), T.
  - intros E T U. unfold analyze_code. cbn [Py.as_dict]. cbv zeta.
    rewrite C, L. cbn [as_str]. now rewrite (S E), T, U.
Qed.

Lemma route_refuses_witness :
  analyze_code all_clean (Body (JObj [("language", JStr "Ruby")])) Sample.st0
  = (bad_request "No code provided", Sample.st0)
  /\ analyze_code all_clean
       (Body (JObj [("code", JStr long_code); ("language", JStr "Ruby")]))
       Sample.st0
     = (bad_request "Code size exceeds 100KB limit", Sample.st0)
  /\ analyze_code all_clean
       (Body (JObj [("code", JStr "puts 1"); ("language", JStr "Ruby")]))
       Sample.st0
     = (bad_request "Unsupported language: ruby", Sample.st0).
Proof.
  split; [|split].
  - apply (proj1 (route_refuses all_clean [("language", JStr "Ruby")] "" "Ruby"
                    Sample.st0 eq_refl eq_refl)).
    reflexivity.
  - apply (proj1 (proj2 (route_refuses all_clean
                           [("code", JStr long_code); ("language", JStr "Ruby")]
                           long_code "Ruby" Sample.st0 eq_refl eq_refl))).
    + assert (H : nonempty (Text.strip long_code) = true)
        by (vm_compute; reflexivity).
      intros E. rewrite E in H. discriminate H.
    + vm_compute. reflexivity.
  - apply (proj2 (proj2 (route_refuses all_clean
                           [("code", JStr "puts 1"); ("language", JStr "Ruby")]
                           "puts 1" "Ruby" Sample.st0 eq_refl eq_refl)));
      [discriminate|reflexivity|reflexivity].
Defined.

(** X19.  A body the route cannot use ends in status 500 with the text of
    the exception, nothing having been analysed: a body Flask refuses to
    decode; a body that is not an object; a language that is not a text
    (even when the code is missing); a code that is not a text. *)
Theorem route_unusable_body (w : world) (st : state) :
  (forall msg, analyze_code w (GetJsonRaised msg) st = (server_error msg, st))
  /\ (forall data,
         (forall d, data <> JObj d) ->
         analyze_code w (Body data) st
         = (server_error ("'" ++ Py.type_name data
                          ++ "' object has no attribute 'get'"), st))
  /\ (forall d v,
         Py.get_default d "language" (JStr "python") = v ->
         (forall l, v <> JStr l) ->
         analyze_code w (Body (JObj d)) st
         = (server_error ("'" ++ Py.type_name v
                          ++ "' object has no attribute 'lower'"), st))
  /\ (forall d l v,
         Py.get_default d "language" (JStr "python") = JStr l ->
         Py.get_default d "code" (JStr "") = v ->
         (forall c, v <> JStr c) ->
         analyze_code w (Body (JObj d)) st
         = (server_error ("'" ++ Py.type_name v
                          ++ "' object has no attribute 'strip'"), st)).
Proof.
  repeat split.
  - intros data H. unfold analyze_code.
    destruct data; try reflexivity. now destruct (H d).
  - intros d v L H. unfold analyze_code. cbn [Py.as_dict]. cbv zeta.
    rewrite L. destruct v; try reflexivity. now destruct (H s).
  - intros d l v L C H. unfold analyze_code. cbn [Py.as_dict]. cbv zeta.
    rewrite L, C. cbn [as_str].
    destruct v; try reflexivity. now destruct (H s).
Qed.

Lemma route_unusable_body_witness :
  analyze_code all_clean (Body (JArr [])) Sample.st0
  = (server_error "'list' object has no attribute 'get'", Sample.st0)
  /\ analyze_code all_clean (Body (JObj [("language", JInt 3)])) Sample.st0
     = (server_error "'int' object has no attribute 'lower'", Sample.st0)
  /\ analyze_code all_clean (Body (JObj [("code", JNull)])) Sample.st0
     = (server_error "'NoneType' object has no attribute 'strip'", Sample.st0).
Proof.
  destruct (route_unusable_body all_clean Sample.st0) as (_ & H1 & H2 & H3).
  split; [|split].
  - apply (H1 (JArr [])). discriminate.
  - apply (H2 [("language", JInt 3)] (JInt 3) eq_refl). discriminate.
  - apply (H3 [("code", JNull)] "python" JNull eq_refl eq_refl). discriminate.
Defined.


